(** * LearnOpenGL free-fly camera: a shallow embedding of [camera.h]

    The header [includes/learnopengl/camera.h] declares one class, [Camera],
    whose methods update a plain record of [float]s and [glm::vec3]s.  The
    embedding keeps the shape of the C++ text: every method is a function
    from the object before the call to the object after it, written as the
    same sequence of assignments.

    The arithmetic of the header is written once, over an interface
    [Scalar], and read in two ways:

    - over IEEE-754 binary32 ([SpecFloat] with 24 bits of precision), which
      is what a C++ [float] is: rounding, infinities and NaN are all there;
    - over the real numbers, the exact arithmetic that the geometry of the
      camera (unit vectors, orthogonality) is about.

    In the binary32 reading every operation rounds once, to nearest with
    ties to even (no excess precision, no fused multiply-add), and the C
    library's [cos] and [sin] are parameters.  [GetViewMatrix] only reads
    the object and hands it to [glm::lookAt], which is embedded with the
    rest of GLM's part. *)

From Stdlib Require Import ZArith Bool List QArith Qabs Reals Lra Lia.
From Stdlib Require Import Floats.SpecFloat.

Set Implicit Arguments.

(** ** Scalars *)

(** What the header asks of [float]: decimal literals, the four operations,
    [sqrt], the C library's [cos] and [sin], the comparison [<], and the
    degree-to-radian factor that [glm::radians] multiplies by. *)
Class Scalar (F : Type) : Type := {
  dec : Z -> nat -> F;          (* [dec m k] is the literal m * 10^-k *)
  fadd : F -> F -> F;
  fsub : F -> F -> F;
  fmul : F -> F -> F;
  fdiv : F -> F -> F;
  fsqrt : F -> F;
  fcos : F -> F;
  fsin : F -> F;
  flt : F -> F -> bool;
  deg2rad : F
}.

Declare Scope scalar_scope.
Delimit Scope scalar_scope with sc.
Infix "+" := fadd : scalar_scope.
Infix "-" := fsub : scalar_scope.
Infix "*" := fmul : scalar_scope.
Infix "/" := fdiv : scalar_scope.
Infix "<?" := flt : scalar_scope.
Notation "a >? b" := (flt b a) : scalar_scope.

(** ** The part of GLM that the header calls

    GLM is a library the header includes; its sources are not part of the
    repository's sources.  The specification names its functions
    ([radians], [cross], [normalize]) and uses them with their usual
    meaning; each definition below is that meaning, written the way GLM
    computes it. *)

Module glm.
Section Vec.
Context {F : Type} {SF : Scalar F}.
Local Open Scope scalar_scope.

(** Modelled from the spec: [glm::vec3], "3D point" or "3D vector", three
    scalars [x], [y], [z]. *)
Record vec3 : Type := mk_vec3 { x : F; y : F; z : F }.

(** Modelled from the spec: [operator+] of [glm::vec3] ([+=] stores it),
    component by component. *)
Definition vadd (a b : vec3) : vec3 :=
  mk_vec3 (x a + x b) (y a + y b) (z a + z b).

(** Modelled from the spec: [operator-] of [glm::vec3] ([-=] stores it),
    component by component. *)
Definition vsub (a b : vec3) : vec3 :=
  mk_vec3 (x a - x b) (y a - y b) (z a - z b).

(** Modelled from the spec: [operator*] of a [glm::vec3] and a scalar,
    "scaled by". *)
Definition vscale (v : vec3) (s : F) : vec3 :=
  mk_vec3 (x v * s) (y v * s) (z v * s).

(** Modelled from the spec: [glm::radians], degrees times pi/180. *)
Definition radians (degrees : F) : F := degrees * deg2rad.

(** Modelled from the spec: [glm::dot], "dot products"; GLM sums the three
    products left to right. *)
Definition dot (a b : vec3) : F :=
  x a * x b + y a * y b + z a * z b.

(** Modelled from the spec: [glm::cross], "cross". *)
Definition cross (a b : vec3) : vec3 :=
  mk_vec3 (y a * z b - y b * z a)
          (z a * x b - z b * x a)
          (x a * y b - x b * y a).

(** Modelled from the spec: [glm::inversesqrt], which [glm::normalize]
    calls: one over the square root. *)
Definition inversesqrt (s : F) : F := dec 1 0 / fsqrt s.

(** Modelled from the spec: [glm::normalize], "normalize"; GLM multiplies
    the vector by [inversesqrt (dot v v)]. *)
Definition normalize (v : vec3) : vec3 := vscale v (inversesqrt (dot v v)).
End Vec.
Arguments vec3 F : clear implicits.
End glm.

Declare Scope vec_scope.
Delimit Scope vec_scope with V.
Infix "+" := glm.vadd : vec_scope.
Infix "-" := glm.vsub : vec_scope.
Infix "*" := glm.vscale : vec_scope.

(** ** camera.h *)

(** The possible options for camera movement. *)
Inductive Camera_Movement : Type := FORWARD | BACKWARD | LEFT | RIGHT.

Definition Camera_Movement_eqb (a b : Camera_Movement) : bool :=
  match a, b with
  | FORWARD, FORWARD | BACKWARD, BACKWARD | LEFT, LEFT | RIGHT, RIGHT => true
  | _, _ => false
  end.

Section CameraH.
Context {F : Type} {SF : Scalar F}.
Local Open Scope scalar_scope.
Local Abbreviation vec3 := (glm.vec3 F).

(** Default camera values. *)
Definition YAW : F := dec (-90) 0.
Definition PITCH : F := dec 0 0.
Definition SPEED : F := dec 25 1.
Definition SENSITIVITY : F := dec 1 1.
Definition ZOOM : F := dec 45 0.

(** Euler angles. *)
Record _EulerAngles : Type := mk_EulerAngles { Yaw : F; Pitch : F }.

(** The macro [_EulerAnglesRotate(_this, front)] stores into all three
    components of its target, so the target's previous contents play no
    part: it is a function of the angles.  Its [cos] and [sin] are the C
    library's. *)
Definition _EulerAnglesRotate (_this : _EulerAngles) : vec3 :=
  glm.mk_vec3
    (fcos (glm.radians (Yaw _this)) * fcos (glm.radians (Pitch _this)))
    (fsin (glm.radians (Pitch _this)))
    (fsin (glm.radians (Yaw _this)) * fcos (glm.radians (Pitch _this))).

(** Camera, but without methods. *)
Record _Camera : Type := mk_Camera {
  Position : vec3;
  Front : vec3;
  Up : vec3;
  Right : vec3;
  WorldUp : vec3;
  EulerAngles : _EulerAngles;
  MovementSpeed : F;
  MouseSensitivity : F;
  Zoom : F
  }.

(** Assignment to one member of the object. *)
Definition set_Position (v : vec3) (c : _Camera) : _Camera :=
  mk_Camera v (Front c) (Up c) (Right c) (WorldUp c) (EulerAngles c)
            (MovementSpeed c) (MouseSensitivity c) (Zoom c).
Definition set_Front (v : vec3) (c : _Camera) : _Camera :=
  mk_Camera (Position c) v (Up c) (Right c) (WorldUp c) (EulerAngles c)
            (MovementSpeed c) (MouseSensitivity c) (Zoom c).
Definition set_Up (v : vec3) (c : _Camera) : _Camera :=
  mk_Camera (Position c) (Front c) v (Right c) (WorldUp c) (EulerAngles c)
            (MovementSpeed c) (MouseSensitivity c) (Zoom c).
Definition set_Right (v : vec3) (c : _Camera) : _Camera :=
  mk_Camera (Position c) (Front c) (Up c) v (WorldUp c) (EulerAngles c)
            (MovementSpeed c) (MouseSensitivity c) (Zoom c).
Definition set_WorldUp (v : vec3) (c : _Camera) : _Camera :=
  mk_Camera (Position c) (Front c) (Up c) (Right c) v (EulerAngles c)
            (MovementSpeed c) (MouseSensitivity c) (Zoom c).
Definition set_Yaw (a : F) (c : _Camera) : _Camera :=
  mk_Camera (Position c) (Front c) (Up c) (Right c) (WorldUp c)
            (mk_EulerAngles a (Pitch (EulerAngles c)))
            (MovementSpeed c) (MouseSensitivity c) (Zoom c).
Definition set_Pitch (a : F) (c : _Camera) : _Camera :=
  mk_Camera (Position c) (Front c) (Up c) (Right c) (WorldUp c)
            (mk_EulerAngles (Yaw (EulerAngles c)) a)
            (MovementSpeed c) (MouseSensitivity c) (Zoom c).
Definition set_MovementSpeed (a : F) (c : _Camera) : _Camera :=
  mk_Camera (Position c) (Front c) (Up c) (Right c) (WorldUp c)
            (EulerAngles c) a (MouseSensitivity c) (Zoom c).
Definition set_MouseSensitivity (a : F) (c : _Camera) : _Camera :=
  mk_Camera (Position c) (Front c) (Up c) (Right c) (WorldUp c)
            (EulerAngles c) (MovementSpeed c) a (Zoom c).
Definition set_Zoom (a : F) (c : _Camera) : _Camera :=
  mk_Camera (Position c) (Front c) (Up c) (Right c) (WorldUp c)
            (EulerAngles c) (MovementSpeed c) (MouseSensitivity c) a.

(** [Camera::updateCameraVectors]. *)
Definition updateCameraVectors (this : _Camera) : _Camera :=
  let front := _EulerAnglesRotate (EulerAngles this) in
  let this := set_Front (glm.normalize front) this in
  let this :=
    set_Right (glm.normalize (glm.cross (Front this) (WorldUp this))) this in
  let this :=
    set_Up (glm.normalize (glm.cross (Right this) (Front this))) this in
  this.

(** The body shared by the two constructors, run on the storage [this] of
    the object under construction (whose contents before the body runs
    are indeterminate). *)
Definition Camera_body (this : _Camera) (position up : vec3) (yaw pitch : F)
  : _Camera :=
  let this := set_Front (glm.mk_vec3 (dec 0 0) (dec 0 0) (dec (-1) 0)) this in
  let this := set_MovementSpeed SPEED this in
  let this := set_MouseSensitivity SENSITIVITY this in
  let this := set_Zoom ZOOM this in
  let this := set_Position position this in
  let this := set_WorldUp up this in
  let this := set_Yaw yaw this in
  let this := set_Pitch pitch this in
  updateCameraVectors this.

(** Storage before construction.  Every member is assigned by
    [Camera_body] before it is read (lemma [Camera_body_storage]). *)
Definition raw_storage : _Camera :=
  let o := glm.mk_vec3 (dec 0 0) (dec 0 0) (dec 0 0) in
  mk_Camera o o o o o (mk_EulerAngles (dec 0 0) (dec 0 0))
            (dec 0 0) (dec 0 0) (dec 0 0).

(** Constructor with vectors. *)
Definition Camera (position up : vec3) (yaw pitch : F) : _Camera :=
  Camera_body raw_storage position up yaw pitch.

(** Constructor with scalar values. *)
Definition Camera_scalars (posX posY posZ upX upY upZ yaw pitch : F)
  : _Camera :=
  Camera_body raw_storage (glm.mk_vec3 posX posY posZ)
              (glm.mk_vec3 upX upY upZ) yaw pitch.

(** The first constructor with every default argument. *)
Definition Camera_default : _Camera :=
  Camera (glm.mk_vec3 (dec 0 0) (dec 0 0) (dec 0 0))
         (glm.mk_vec3 (dec 0 0) (dec 1 0) (dec 0 0)) YAW PITCH.

(** [Camera::ProcessKeyboard]: four independent [if]s. *)
Definition ProcessKeyboard (direction : Camera_Movement) (deltaTime : F)
           (this : _Camera) : _Camera :=
  let velocity := MovementSpeed this * deltaTime in
  let this :=
    if Camera_Movement_eqb direction FORWARD
    then set_Position (Position this + Front this * velocity)%V this
    else this in
  let this :=
    if Camera_Movement_eqb direction BACKWARD
    then set_Position (Position this - Front this * velocity)%V this
    else this in
  let this :=
    if Camera_Movement_eqb direction LEFT
    then set_Position (Position this - Right this * velocity)%V this
    else this in
  let this :=
    if Camera_Movement_eqb direction RIGHT
    then set_Position (Position this + Right this * velocity)%V this
    else this in
  this.

(** [Camera::ProcessMouseMovement]. *)
Definition ProcessMouseMovement (xoffset yoffset : F) (constrainPitch : bool)
           (this : _Camera) : _Camera :=
  let xoffset := xoffset * MouseSensitivity this in
  let yoffset := yoffset * MouseSensitivity this in
  let this := set_Yaw (Yaw (EulerAngles this) + xoffset) this in
  let this := set_Pitch (Pitch (EulerAngles this) + yoffset) this in
  let this :=
    if constrainPitch then
      let this :=
        if Pitch (EulerAngles this) >? dec 89 0
        then set_Pitch (dec 89 0) this else this in
      let this :=
        if Pitch (EulerAngles this) <? dec (-89) 0
        then set_Pitch (dec (-89) 0) this else this in
      this
    else this in
  updateCameraVectors this.

(** [Camera::ProcessMouseScroll]. *)
Definition ProcessMouseScroll (yoffset : F) (this : _Camera) : _Camera :=
  let this := set_Zoom (Zoom this - yoffset) this in
  let this := if Zoom this <? dec 1 0 then set_Zoom (dec 1 0) this else this in
  let this := if Zoom this >? dec 45 0 then set_Zoom (dec 45 0) this else this in
  this.
End CameraH.
Arguments _EulerAngles F : clear implicits.
Arguments _Camera F : clear implicits.

(** ** Exact arithmetic: the scalars are real numbers *)

Definition Rltb (a b : R) : bool := if Rlt_dec a b then true else false.

(** [glm::radians] multiplies by the decimal expansion of pi/180 to 32
    digits; in exact arithmetic the factor is pi/180 itself. *)
#[export] Instance Scalar_R : Scalar R := {|
  dec := fun m k => (IZR m / 10 ^ k)%R;
  fadd := Rplus;
  fsub := Rminus;
  fmul := Rmult;
  fdiv := Rdiv;
  fsqrt := sqrt;
  fcos := cos;
  fsin := sin;
  flt := Rltb;
  deg2rad := (PI / 180)%R
|}.

(** ** IEEE-754 binary32: the scalars are C++ [float]s *)

(** A [float]: [SpecFloat]'s zeros, infinities, NaN and finite numbers
    [(-1)^s * m * 2^e], with 24 bits of precision and exponents up to
    128. *)
Definition binary32 : Type := spec_float.

Definition b32_prec : Z := 24.
Definition b32_emax : Z := 128.

Definition b32_add : binary32 -> binary32 -> binary32 := SFadd b32_prec b32_emax.
Definition b32_sub : binary32 -> binary32 -> binary32 := SFsub b32_prec b32_emax.
Definition b32_mul : binary32 -> binary32 -> binary32 := SFmul b32_prec b32_emax.
Definition b32_div : binary32 -> binary32 -> binary32 := SFdiv b32_prec b32_emax.
Definition b32_sqrt : binary32 -> binary32 := SFsqrt b32_prec b32_emax.
Definition b32_ltb : binary32 -> binary32 -> bool := SFltb.
Definition b32_leb : binary32 -> binary32 -> bool := SFleb.

(** The float nearest to the fraction [n / d] (round to nearest, ties to
    even): it is how a decimal literal such as [0.1f] denotes a float. *)
Definition b32_of_ratio (n : Z) (d : positive) : binary32 :=
  match n with
  | Z0 => S754_zero false
  | Zpos p => b32_div (S754_finite false p 0) (S754_finite false d 0)
  | Zneg p => b32_div (S754_finite true p 0) (S754_finite false d 0)
  end.

Definition b32_dec (m : Z) (k : nat) : binary32 :=
  b32_of_ratio m (Z.to_pos (10 ^ Z.of_nat k)).

(** The rational number a finite float stands for. *)
Definition b32_to_Q (a : binary32) : Q :=
  match a with
  | S754_finite s m e =>
      ((if s then -1 else 1) * inject_Z (Zpos m) * Qpower 2 e)%Q
  | _ => 0%Q
  end.

(** *** A reference [cosf] and [sinf]

    The C library's [cos] and [sin] are parameters of the binary32 reading:
    every theorem about it holds whatever they compute.  To run the model
    on concrete inputs a reference pair is given here: the argument is
    taken to fixed point with 64 fractional bits, reduced to [-pi, pi),
    the Taylor series is summed there (24 terms, each truncated, so the
    sum is within about 2^-58 of the true value), and the sum is rounded
    once to binary32.  For arguments of moderate size this is the
    correctly rounded result; no claim is made about it beyond the
    values computed below. *)

Definition fix_bits : Z := 64.
Definition fix_one : Z := 2 ^ fix_bits.
Definition fix_pi : Z := 57952155664616982739.
Definition fix_two_pi : Z := 115904311329233965478.

Definition fix_of_b32 (a : binary32) : Z :=
  match a with
  | S754_finite s m e =>
      let v := Z.shiftl (Zpos m) (e + fix_bits) in if s then (- v)%Z else v
  | _ => 0%Z
  end.

Definition fix_to_b32 (v : Z) : binary32 :=
  binary_normalize b32_prec b32_emax v (- fix_bits) false.

Definition fix_mul (a b : Z) : Z := Z.shiftr (a * b) fix_bits.

Definition fix_reduce (v : Z) : Z :=
  (v - ((v + fix_pi) / fix_two_pi) * fix_two_pi)%Z.

Fixpoint fix_series (n : nat) (k : Z) (term x2 acc : Z) : Z :=
  match n with
  | O => acc
  | S n' =>
      let term' := (- fix_mul term x2 / ((k + 1) * (k + 2)))%Z in
      fix_series n' (k + 2)%Z term' x2 (acc + term')%Z
  end.

Definition cosf_ref (a : binary32) : binary32 :=
  match a with
  | S754_nan | S754_infinity _ => S754_nan
  | S754_zero _ => b32_dec 1 0
  | S754_finite _ _ _ =>
      let r := fix_reduce (fix_of_b32 a) in
      fix_to_b32 (fix_series 24 0 fix_one (fix_mul r r) fix_one)
  end.

Definition sinf_ref (a : binary32) : binary32 :=
  match a with
  | S754_nan | S754_infinity _ => S754_nan
  | S754_zero _ => a
  | S754_finite _ _ _ =>
      let r := fix_reduce (fix_of_b32 a) in
      fix_to_b32 (fix_series 24 1 r (fix_mul r r) r)
  end.

(** The binary32 reading, for a given [cos] and [sin].  The factor of
    [glm::radians] is the float of GLM's constant
    0.01745329251994329576923690768489, that is 9370165 * 2^-29. *)
Definition Scalar_binary32 (cosf sinf : binary32 -> binary32)
  : Scalar binary32 := {|
  dec := b32_dec;
  fadd := b32_add;
  fsub := b32_sub;
  fmul := b32_mul;
  fdiv := b32_div;
  fsqrt := b32_sqrt;
  fcos := cosf;
  fsin := sinf;
  flt := b32_ltb;
  deg2rad := S754_finite false 9370165 (-29)
|}.

(** The binary32 reading with the reference [cosf] and [sinf]. *)
Definition Scalar_b32_ref : Scalar binary32 :=
  Scalar_binary32 cosf_ref sinf_ref.

(** ** [GetViewMatrix] and the part of GLM it calls *)

(** The unary minus of [float], which [glm::lookAt] uses: it flips the
    sign and never rounds. *)
Class Negation (F : Type) : Type := fneg : F -> F.

#[export] Instance Negation_R : Negation R := Ropp.

Definition Negation_binary32 : Negation binary32 := SFopp.

Module glm_matrix_transform.
Section Mat.
Context {F : Type} {SF : Scalar F} {NF : Negation F}.
Local Open Scope scalar_scope.

(** Modelled from the spec: [glm::vec4], four scalars. *)
Record vec4 : Type := mk_vec4 { x : F; y : F; z : F; w : F }.

(** Modelled from the spec: [glm::mat4], the "4x4 transform", stored by
    columns as GLM does: [col0] is [m[0]], and [m[c][r]] is row [r] of
    column [c]. *)
Record mat4 : Type := mk_mat4 {
  col0 : vec4; col1 : vec4; col2 : vec4; col3 : vec4
}.

(** Modelled from the spec: [glm::lookAt], the "look-at transform" from
    [eye] toward [center] with [up] as the reference vertical, as GLM's
    right-handed default builds it: [f = normalize (center - eye)],
    [s = normalize (cross f up)], [u = cross s f], the rows of the
    rotation are [s], [u], [-f], and the last column is
    [(-dot s eye, -dot u eye, dot f eye, 1)]. *)
Definition lookAt (eye center up : glm.vec3 F) : mat4 :=
  let f := glm.normalize (center - eye)%V in
  let s := glm.normalize (glm.cross f up) in
  let u := glm.cross s f in
  mk_mat4
    (mk_vec4 (glm.x s) (glm.x u) (fneg (glm.x f)) (dec 0 0))
    (mk_vec4 (glm.y s) (glm.y u) (fneg (glm.y f)) (dec 0 0))
    (mk_vec4 (glm.z s) (glm.z u) (fneg (glm.z f)) (dec 0 0))
    (mk_vec4 (fneg (glm.dot s eye)) (fneg (glm.dot u eye)) (glm.dot f eye)
             (dec 1 0)).

(** Modelled from the spec: the product of a [glm::mat4] and a
    [glm::vec4], which is how the rendering backend uses the view matrix:
    [(m[0] * v.x + m[1] * v.y) + (m[2] * v.z + m[3] * v.w)]. *)
Definition mul_vec4 (m : mat4) (v : vec4) : vec4 :=
  let row (r : vec4 -> F) :=
    (r (col0 m) * x v + r (col1 m) * y v)
    + (r (col2 m) * z v + r (col3 m) * w v) in
  mk_vec4 (row x) (row y) (row z) (row w).
End Mat.
Arguments vec4 F : clear implicits.
Arguments mat4 F : clear implicits.
End glm_matrix_transform.

(** [Camera::GetViewMatrix]: it reads the object and changes nothing. *)
Definition GetViewMatrix {F : Type} {SF : Scalar F} {NF : Negation F}
           (this : _Camera F) : glm_matrix_transform.mat4 F :=
  glm_matrix_transform.lookAt (Position this) (Position this + Front this)%V
                              (Up this).

(** ** What the specification says, in its own words *)

Section SpecWords.
Context {F : Type} {SF : Scalar F}.
Local Open Scope scalar_scope.

(** "front.x = cos(radians(yaw)) * cos(radians(pitch)), front.y =
    sin(radians(pitch)), front.z = sin(radians(yaw)) * cos(radians(pitch)),
    then normalizes front". *)
Definition spec_front (yaw pitch : F) : glm.vec3 F :=
  glm.normalize
    (glm.mk_vec3 (fcos (glm.radians yaw) * fcos (glm.radians pitch))
                 (fsin (glm.radians pitch))
                 (fsin (glm.radians yaw) * fcos (glm.radians pitch))).

(** "right = normalize(cross(front, world_up))". *)
Definition spec_right (yaw pitch : F) (world_up : glm.vec3 F) : glm.vec3 F :=
  glm.normalize (glm.cross (spec_front yaw pitch) world_up).

(** "up = normalize(cross(right, front))". *)
Definition spec_up (yaw pitch : F) (world_up : glm.vec3 F) : glm.vec3 F :=
  glm.normalize
    (glm.cross (spec_right yaw pitch world_up) (spec_front yaw pitch)).

(** The basis is the one of the current angles and world-up: not stale. *)
Definition basis_current (c : _Camera F) : Prop :=
  Front c = spec_front (Yaw (EulerAngles c)) (Pitch (EulerAngles c)) /\
  Right c = spec_right (Yaw (EulerAngles c)) (Pitch (EulerAngles c)) (WorldUp c) /\
  Up c = spec_up (Yaw (EulerAngles c)) (Pitch (EulerAngles c)) (WorldUp c).

(** "clamped to [lo, hi]". *)
Definition saturate (lo hi v : F) : F :=
  if v <? lo then lo else if v >? hi then hi else v.

(** The states a program can bring a camera to: built by one of the two
    constructors, then driven by the three input handlers. *)
Inductive reachable : _Camera F -> Prop :=
| reach_Camera : forall position up yaw pitch,
    reachable (Camera position up yaw pitch)
| reach_Camera_scalars : forall posX posY posZ upX upY upZ yaw pitch,
    reachable (Camera_scalars posX posY posZ upX upY upZ yaw pitch)
| reach_ProcessKeyboard : forall direction deltaTime c,
    reachable c -> reachable (ProcessKeyboard direction deltaTime c)
| reach_ProcessMouseMovement : forall xoffset yoffset constrainPitch c,
    reachable c ->
    reachable (ProcessMouseMovement xoffset yoffset constrainPitch c)
| reach_ProcessMouseScroll : forall yoffset c,
    reachable c -> reachable (ProcessMouseScroll yoffset c).
End SpecWords.


Definition unit_vec (v : glm.vec3 R) : Prop := glm.dot v v = 1%R.


(** Over binary32: a zero or a finite float, neither infinite nor NaN. *)
Definition b32_finite (a : binary32) : bool :=
  match a with
  | S754_zero _ | S754_finite _ _ _ => true
  | S754_infinity _ | S754_nan => false
  end.

(** Over binary32: [lo <= v && v <= hi] as C++ evaluates it. *)
Definition b32_in_range (lo hi v : binary32) : bool :=
  b32_leb lo v && b32_leb v hi.

(** *** Concrete cameras used to run the model *)

(** binary32: [Camera()], and [Camera(glm::vec3(0, 0, 0.1f))]. *)
Definition b32_default_camera : _Camera binary32 :=
  Camera_default (SF := Scalar_b32_ref).

Definition b32_offset_camera : _Camera binary32 :=
  Camera (SF := Scalar_b32_ref)
         (glm.mk_vec3 (b32_dec 0 0) (b32_dec 0 0) (b32_dec 1 1))
         (glm.mk_vec3 (b32_dec 0 0) (b32_dec 1 0) (b32_dec 0 0))
         (b32_dec (-90) 0) (b32_dec 0 0).

Definition b32_pole_camera : _Camera binary32 :=
  Camera (SF := Scalar_b32_ref)
         (glm.mk_vec3 (b32_dec 0 0) (b32_dec 0 0) (b32_dec 0 0))
         (glm.mk_vec3 (b32_dec 0 0) (b32_dec 1 0) (b32_dec 0 0))
         (b32_dec (-90) 0) (b32_dec 90 0).

Definition b32_nan_vec : glm.vec3 binary32 :=
  glm.mk_vec3 S754_nan S754_nan S754_nan.

Definition b32_zero_vec : glm.vec3 binary32 :=
  glm.mk_vec3 (S754_zero false) (S754_zero false) (S754_zero false).


Definition b32_turned_camera : _Camera binary32 :=
  ProcessMouseMovement (SF := Scalar_b32_ref) (b32_dec 100 0) (b32_dec 300 0)
                       true b32_default_camera.

(** Over binary32: the world-up (0, 1, 0). *)
Definition b32_up_Y : glm.vec3 binary32 :=
  glm.mk_vec3 (b32_dec 0 0) (b32_dec 1 0) (b32_dec 0 0).


(** Over binary32: the float is finite and the number it stands for is
    within 1e-5 of the rational [q]. *)
Definition b32_near (a : binary32) (q : Q) : bool :=
  b32_finite a && Qle_bool (Qabs (b32_to_Q a - q)) (1 # 100000).





(** Over binary32: a zero of either sign, or NaN. *)
Definition b32_zero_or_nan (a : binary32) : bool :=
  match a with
  | S754_zero _ | S754_nan => true
  | S754_infinity _ | S754_finite _ _ _ => false
  end.

(** Over binary32: the view matrix whose twelve upper entries are NaN. *)
Definition b32_nan_view : glm_matrix_transform.mat4 binary32 :=
  glm_matrix_transform.mk_mat4
    (glm_matrix_transform.mk_vec4 S754_nan S754_nan S754_nan (b32_dec 0 0))
    (glm_matrix_transform.mk_vec4 S754_nan S754_nan S754_nan (b32_dec 0 0))
    (glm_matrix_transform.mk_vec4 S754_nan S754_nan S754_nan (b32_dec 0 0))
    (glm_matrix_transform.mk_vec4 S754_nan S754_nan S754_nan (b32_dec 1 0)).

(** Closed binary32 goals are settled by running the model. *)
Ltac b32_run :=
  repeat match goal with |- _ /\ _ => split end;
  vm_compute; (reflexivity || discriminate).

(** ** Any arithmetic: what the methods assign *)

Section AnyScalar.
Context {F : Type} {SF : Scalar F}.
Local Open Scope scalar_scope.

Lemma Camera_body_storage (t1 t2 : _Camera F) position up yaw pitch :
  Camera_body t1 position up yaw pitch = Camera_body t2 position up yaw pitch.
Proof. reflexivity. Qed.

Lemma updateCameraVectors_angles (c : _Camera F) :
  EulerAngles (updateCameraVectors c) = EulerAngles c /\
  WorldUp (updateCameraVectors c) = WorldUp c.
Proof. split; reflexivity. Qed.

Lemma updateCameraVectors_basis (c : _Camera F) :
  let c' := updateCameraVectors c in
  Right c' = glm.normalize (glm.cross (Front c') (WorldUp c)) /\
  Up c' = glm.normalize (glm.cross (Right c') (Front c')).
Proof. split; reflexivity. Qed.

Lemma Camera_basis position up yaw pitch :
  let c := Camera position up yaw pitch in
  Right c = glm.normalize (glm.cross (Front c) up) /\
  Up c = glm.normalize (glm.cross (Right c) (Front c)).
Proof.
  exact (updateCameraVectors_basis
           (set_Pitch pitch
              (set_Yaw yaw
                 (set_WorldUp up
                    (set_Position position
                       (set_Zoom ZOOM
                          (set_MouseSensitivity SENSITIVITY
                             (set_MovementSpeed SPEED
                                (set_Front
                                   (glm.mk_vec3 (dec 0 0) (dec 0 0)
                                                (dec (-1) 0))
                                   raw_storage))))))))).
Qed.

Lemma updateCameraVectors_current (c : _Camera F) :
  basis_current (updateCameraVectors c).
Proof. repeat split. Qed.

Lemma ProcessKeyboard_frame direction deltaTime (c : _Camera F) :
  exists p, ProcessKeyboard direction deltaTime c = set_Position p c.
Proof.
  destruct direction; unfold ProcessKeyboard; cbn;
    eexists; reflexivity.
Qed.

Lemma ProcessMouseScroll_frame yoffset (c : _Camera F) :
  exists z, ProcessMouseScroll yoffset c = set_Zoom z c.
Proof.
  unfold ProcessMouseScroll; cbn.
  destruct (flt _ (dec 1 0)); cbn; destruct (flt (dec 45 0) _); cbn;
    eexists; reflexivity.
Qed.

Lemma reachable_basis_current (c : _Camera F) :
  reachable c -> basis_current c.
Proof.
  induction 1 as [ | | d dt c Hc IH | xo yo cp c Hc IH | yo c Hc IH ].
  - apply updateCameraVectors_current.
  - apply updateCameraVectors_current.
  - destruct (ProcessKeyboard_frame d dt c) as [p ->]. exact IH.
  - apply updateCameraVectors_current.
  - destruct (ProcessMouseScroll_frame yo c) as [z ->]. exact IH.
Qed.
End AnyScalar.

(** ** Exact arithmetic: the geometry of the basis *)

Section Exact.
Local Open Scope R_scope.

Lemma dec_R_int (m : Z) : dec (F := R) m 0 = IZR m.
Proof. cbn. unfold Rdiv. now rewrite Rinv_1, Rmult_1_r. Qed.

Lemma vec3_ext (a b : glm.vec3 R) :
  glm.x a = glm.x b -> glm.y a = glm.y b -> glm.z a = glm.z b -> a = b.
Proof. destruct a, b; cbn; intros; subst; reflexivity. Qed.



Lemma one_R : dec (F := R) 1 0 = 1.
Proof. apply dec_R_int. Qed.

Lemma vscale_one (v : glm.vec3 R) : glm.vscale v 1 = v.
Proof. apply vec3_ext; cbn; ring. Qed.


(** A vector of length one is its own normalization. *)
Lemma normalize_unit (v : glm.vec3 R) : unit_vec v -> glm.normalize v = v.
Proof.
  unfold unit_vec, glm.normalize, glm.inversesqrt; intros ->.
  rewrite one_R. cbn [fsqrt fdiv Scalar_R]. rewrite sqrt_1.
  replace (1 / 1) with 1 by field. apply vscale_one.
Qed.







(** The vector of the Euler angles has length one already. *)
Lemma EulerAnglesRotate_unit (e : _EulerAngles R) :
  unit_vec (_EulerAnglesRotate e).
Proof.
  unfold unit_vec, _EulerAnglesRotate, glm.dot.
  cbn [glm.x glm.y glm.z fadd fmul fcos fsin Scalar_R].
  generalize (glm.radians (Yaw e)) (glm.radians (Pitch e)); intros a b.
  pose proof (sin2_cos2 a) as Ha. pose proof (sin2_cos2 b) as Hb.
  unfold Rsqr in Ha, Hb.
  transitivity ((sin a * sin a + cos a * cos a) * (cos b * cos b)
                + sin b * sin b); [ring | rewrite Ha; lra].
Qed.

Lemma spec_front_exact (yaw pitch : R) :
  spec_front yaw pitch = _EulerAnglesRotate (mk_EulerAngles yaw pitch).
Proof.
  unfold spec_front.
  exact (normalize_unit (EulerAnglesRotate_unit (mk_EulerAngles yaw pitch))).
Qed.


Lemma radians_R (d : R) : glm.radians d = d * (PI / 180).
Proof. reflexivity. Qed.


Lemma radians_m90 : glm.radians (-90) = - (PI / 2).
Proof. rewrite radians_R. lra. Qed.

Lemma radians_0 : glm.radians 0 = 0.
Proof. rewrite radians_R. lra. Qed.

(** What a camera holds in exact arithmetic once its basis is current. *)
Lemma basis_current_exact (c : _Camera R) :
  basis_current c ->
  Front c = _EulerAnglesRotate (EulerAngles c) /\
  Right c = glm.normalize (glm.cross (Front c) (WorldUp c)) /\
  Up c = glm.normalize (glm.cross (Right c) (Front c)).
Proof.
  intros (Hf & Hr & Hu).
  assert (E : Front c = _EulerAnglesRotate (EulerAngles c)).
  { rewrite Hf, spec_front_exact. destruct (EulerAngles c); reflexivity. }
  repeat split; trivial.
  - rewrite Hr, Hf. reflexivity.
  - rewrite Hu, Hr, Hf. reflexivity.
Qed.


End Exact.

(** ** Any arithmetic: the angles and the zoom after a mouse event *)

Section Handlers.
Context {F : Type} {SF : Scalar F}.
Local Open Scope scalar_scope.

Lemma ProcessMouseMovement_angles xoffset yoffset constrainPitch
      (c : _Camera F) :
  let yaw' := Yaw (EulerAngles c) + xoffset * MouseSensitivity c in
  let p0 := Pitch (EulerAngles c) + yoffset * MouseSensitivity c in
  let p1 := if p0 >? dec 89 0 then dec 89 0 else p0 in
  let p2 := if p1 <? dec (-89) 0 then dec (-89) 0 else p1 in
  EulerAngles (ProcessMouseMovement xoffset yoffset constrainPitch c)
  = mk_EulerAngles yaw' (if constrainPitch then p2 else p0).
Proof.
  unfold ProcessMouseMovement. destruct constrainPitch; cbn.
  - destruct (flt (dec 89 0) _); cbn; destruct (flt _ (dec (-89) 0));
      reflexivity.
  - reflexivity.
Qed.

Lemma ProcessMouseMovement_frame xoffset yoffset constrainPitch
      (c : _Camera F) :
  let c' := ProcessMouseMovement xoffset yoffset constrainPitch c in
  Position c' = Position c /\ WorldUp c' = WorldUp c /\
  MovementSpeed c' = MovementSpeed c /\
  MouseSensitivity c' = MouseSensitivity c /\ Zoom c' = Zoom c.
Proof.
  unfold ProcessMouseMovement. destruct constrainPitch; cbn.
  - destruct (flt (dec 89 0) _); cbn; destruct (flt _ (dec (-89) 0));
      repeat split.
  - repeat split.
Qed.

Lemma ProcessMouseScroll_zoom yoffset (c : _Camera F) :
  let z0 := Zoom c - yoffset in
  let z1 := if z0 <? dec 1 0 then dec 1 0 else z0 in
  let z2 := if z1 >? dec 45 0 then dec 45 0 else z1 in
  Zoom (ProcessMouseScroll yoffset c) = z2.
Proof.
  unfold ProcessMouseScroll; cbn.
  destruct (flt _ (dec 1 0)); cbn; destruct (flt (dec 45 0) _); reflexivity.
Qed.
End Handlers.

(** ** binary32: comparisons and the two clamps *)

Section Binary32.

Lemma SFcompare_antisym (a b : binary32) :
  SFcompare b a = option_map CompOpp (SFcompare a b).
Proof.
  pose proof Pos.compare_cont_antisym as A.
  destruct a as [sa|sa| |sa ma ea], b as [sb|sb| |sb mb eb]; cbn;
    try destruct sa; try destruct sb; try reflexivity;
    rewrite (Z.compare_antisym ea eb);
    destruct (ea ?= eb)%Z; cbn; try reflexivity;
    specialize (A ma mb Eq); cbn in A; rewrite <- A;
    now destruct (Pos.compare_cont Eq ma mb).
Qed.

Lemma SFcompare_none (a b : binary32) :
  SFcompare a b = None -> a = S754_nan \/ b = S754_nan.
Proof.
  destruct a as [sa|sa| |sa ma ea], b as [sb|sb| |sb mb eb]; cbn;
    try discriminate; auto.
Qed.

(** For numbers, [not (a < b)] is [b <= a]; NaN is what breaks it. *)
Lemma b32_not_lt_le (a b : binary32) :
  a <> S754_nan -> b <> S754_nan ->
  b32_ltb a b = false -> b32_leb b a = true.
Proof.
  intros Ha Hb. unfold b32_ltb, b32_leb, SFltb, SFleb.
  rewrite (SFcompare_antisym a b).
  destruct (SFcompare a b) as [[]|] eqn:E; cbn; try easy.
  destruct (SFcompare_none _ _ E); contradiction.
Qed.

Lemma b32_ltb_nan_l (a : binary32) : b32_ltb S754_nan a = false.
Proof. reflexivity. Qed.

Lemma b32_ltb_nan_r (a : binary32) : b32_ltb a S754_nan = false.
Proof. destruct a; reflexivity. Qed.

Lemma b32_in_range_nan (lo hi : binary32) : b32_in_range lo hi S754_nan = false.
Proof. unfold b32_in_range. destruct lo; reflexivity. Qed.

(** The shape of both clamps: one bound first, then the other. *)
Lemma b32_clamp_range (lo hi v : binary32) :
  lo <> S754_nan -> hi <> S754_nan -> v <> S754_nan ->
  b32_leb lo hi = true ->
  (b32_ltb v lo = true -> b32_ltb hi v = false) ->
  b32_in_range lo hi
    (if b32_ltb v lo then lo else if b32_ltb hi v then hi else v) = true.
Proof.
  intros Hlo Hhi Hv Hlh Hexcl. unfold b32_in_range.
  assert (Rlo : b32_leb lo lo = true).
  { apply b32_not_lt_le; trivial. unfold b32_ltb, SFltb.
    pose proof (SFcompare_antisym lo lo) as A.
    destruct (SFcompare lo lo) as [[]|]; cbn in A; congruence. }
  assert (Rhi : b32_leb hi hi = true).
  { apply b32_not_lt_le; trivial. unfold b32_ltb, SFltb.
    pose proof (SFcompare_antisym hi hi) as A.
    destruct (SFcompare hi hi) as [[]|]; cbn in A; congruence. }
  destruct (b32_ltb v lo) eqn:E1.
  - now rewrite Rlo, Hlh.
  - destruct (b32_ltb hi v) eqn:E2.
    + now rewrite Hlh, Rhi.
    + rewrite (b32_not_lt_le Hv Hlo E1), (b32_not_lt_le Hhi Hv E2). reflexivity.
Qed.

(** Rounding a non-negative mantissa never produces NaN; so the product
    and the sum of finite floats are numbers (possibly infinite). *)
Lemma shr_1_nonneg (mrs : shr_record) :
  (0 <= shr_m mrs)%Z -> (0 <= shr_m (shr_1 mrs))%Z.
Proof.
  destruct mrs as [m r t]. destruct m as [|[q|q|]|[q|q|]]; cbn; lia.
Qed.

Lemma iter_shr_1_nonneg (n : positive) :
  forall mrs : shr_record,
    (0 <= shr_m mrs)%Z -> (0 <= shr_m (iter_pos shr_1 n mrs))%Z.
Proof.
  induction n as [n IH|n IH|]; intros mrs Hm; cbn [iter_pos].
  - apply IH, IH, shr_1_nonneg, Hm.
  - apply IH, IH, Hm.
  - apply shr_1_nonneg, Hm.
Qed.

Lemma shr_fexp_nonneg (m e : Z) (l : location) :
  (0 <= m)%Z -> (0 <= shr_m (fst (shr_fexp b32_prec b32_emax m e l)))%Z.
Proof.
  intros Hm. unfold shr_fexp, shr.
  assert (H0 : (0 <= shr_m (shr_record_of_loc m l))%Z)
    by (destruct l as [|[]]; exact Hm).
  destruct (fexp b32_prec b32_emax (Zdigits2 m + e) - e)%Z as [|n|n];
    cbn [fst]; trivial.
  apply iter_shr_1_nonneg, H0.
Qed.

Lemma round_nearest_even_nonneg (m : Z) (l : location) :
  (0 <= m)%Z -> (0 <= round_nearest_even m l)%Z.
Proof.
  intros Hm. destruct l as [|[]]; cbn; try lia.
  destruct (Z.even m); lia.
Qed.

Lemma binary_round_aux_number (sx : bool) (mx ex : Z) (lx : location) :
  (0 <= mx)%Z ->
  binary_round_aux b32_prec b32_emax sx mx ex lx <> S754_nan.
Proof.
  intros Hm. unfold binary_round_aux.
  pose proof (shr_fexp_nonneg ex lx Hm) as H1.
  destruct (shr_fexp b32_prec b32_emax mx ex lx) as [mrs' e'].
  cbn [fst] in H1.
  pose proof (shr_fexp_nonneg e' loc_Exact
                (round_nearest_even_nonneg (loc_of_shr_record mrs') H1)) as H2.
  destruct (shr_fexp b32_prec b32_emax _ e' loc_Exact) as [mrs'' e''].
  cbn [fst] in H2.
  destruct (shr_m mrs'') as [|q|q]; try discriminate; try lia.
  destruct (e'' <=? b32_emax - b32_prec)%Z; discriminate.
Qed.

Lemma binary_normalize_number (m e : Z) (szero : bool) :
  binary_normalize b32_prec b32_emax m e szero <> S754_nan.
Proof.
  unfold binary_normalize, binary_round.
  destruct m as [|q|q]; try discriminate;
    destruct (shl_align _ _ _) as [mz ez];
    apply binary_round_aux_number; lia.
Qed.

Lemma b32_mul_number (a b : binary32) :
  b32_finite a = true -> b32_finite b = true -> b32_mul a b <> S754_nan.
Proof.
  destruct a as [sa|sa| |sa ma ea], b as [sb|sb| |sb mb eb];
    cbn [b32_finite]; try discriminate; intros _ _;
    unfold b32_mul; cbn [SFmul]; try discriminate.
  apply binary_round_aux_number; lia.
Qed.

Lemma b32_add_number (a b : binary32) :
  b32_finite a = true -> b <> S754_nan -> b32_add a b <> S754_nan.
Proof.
  destruct a as [sa|sa| |sa ma ea], b as [sb|sb| |sb mb eb];
    cbn [b32_finite]; try discriminate; intros _ Hb;
    unfold b32_add; cbn [SFadd]; try discriminate; try contradiction.
  - destruct sa, sb; discriminate.
  - apply binary_normalize_number.
Qed.

Lemma b32_sub_number (a b : binary32) :
  b32_finite a = true -> b <> S754_nan -> b32_sub a b <> S754_nan.
Proof.
  destruct a as [sa|sa| |sa ma ea], b as [sb|sb| |sb mb eb];
    cbn [b32_finite]; try discriminate; intros _ Hb;
    unfold b32_sub; cbn [SFsub]; try discriminate; try contradiction.
  - destruct sa, sb; discriminate.
  - apply binary_normalize_number.
Qed.
End Binary32.

(** ** Exact arithmetic: the two clamps *)

Section ExactClamps.
Local Open Scope R_scope.

Lemma saturate_R (lo hi v : R) :
  lo <= hi -> saturate lo hi v = Rmax lo (Rmin hi v).
Proof.
  intros Hlh. unfold saturate; cbn [flt Scalar_R]. unfold Rltb.
  unfold Rmax, Rmin.
  destruct (Rlt_dec v lo), (Rlt_dec hi v), (Rle_dec hi v);
    destruct (Rle_dec lo _); lra.
Qed.

Lemma ProcessMouseMovement_pitch_R (c : _Camera R) (xoffset yoffset : R) :
  let c' := ProcessMouseMovement xoffset yoffset true c in
  Pitch (EulerAngles c')
  = saturate (-89) 89 (Pitch (EulerAngles c) + yoffset * MouseSensitivity c)
  /\ -89 <= Pitch (EulerAngles c') <= 89.
Proof.
  cbn zeta. rewrite ProcessMouseMovement_angles. cbn [Pitch].
  rewrite !dec_R_int. unfold saturate. cbn [flt fadd fmul Scalar_R].
  generalize (Pitch (EulerAngles c) + yoffset * MouseSensitivity c).
  intros p. unfold Rltb.
  destruct (Rlt_dec 89 p), (Rlt_dec p (-89));
    repeat match goal with
           | |- context [Rlt_dec ?a ?b] => destruct (Rlt_dec a b)
           end; split; lra.
Qed.

Lemma ProcessMouseScroll_zoom_R (c : _Camera R) (yoffset : R) :
  let c' := ProcessMouseScroll yoffset c in
  Zoom c' = saturate 1 45 (Zoom c - yoffset) /\ 1 <= Zoom c' <= 45.
Proof.
  cbn zeta. rewrite ProcessMouseScroll_zoom.
  rewrite !dec_R_int. unfold saturate. cbn [flt fsub Scalar_R].
  generalize (Zoom c - yoffset). intros z. unfold Rltb.
  destruct (Rlt_dec z 1), (Rlt_dec 45 z);
    repeat match goal with
           | |- context [Rlt_dec ?a ?b] => destruct (Rlt_dec a b)
           end; split; lra.
Qed.

End ExactClamps.

(** ** binary32: the two clamps *)

Section Binary32Clamps.
Variables cosf sinf : binary32 -> binary32.

Lemma b32_above_not_below (p : binary32) :
  b32_ltb (b32_dec 89 0) p = true -> b32_ltb p (b32_dec (-89) 0) = false.
Proof.
  change (b32_dec 89 0) with (S754_finite false 11665408 (-17)).
  change (b32_dec (-89) 0) with (S754_finite true 11665408 (-17)).
  unfold b32_ltb, SFltb.
  destruct p as [[]|[]| |[] m e]; cbn [SFcompare]; congruence.
Qed.

Lemma b32_pitch_clamp (p : binary32) :
  let p1 := if b32_ltb (b32_dec 89 0) p then b32_dec 89 0 else p in
  let p2 := if b32_ltb p1 (b32_dec (-89) 0) then b32_dec (-89) 0 else p1 in
  p2 = saturate (SF := Scalar_binary32 cosf sinf)
                (b32_dec (-89) 0) (b32_dec 89 0) p.
Proof.
  unfold saturate. cbn [flt Scalar_binary32].
  destruct (b32_ltb (b32_dec 89 0) p) eqn:E1.
  - rewrite (b32_above_not_below _ E1). reflexivity.
  - cbn zeta. destruct (b32_ltb p (b32_dec (-89) 0)); reflexivity.
Qed.

Lemma b32_zoom_clamp (z : binary32) :
  let z1 := if b32_ltb z (b32_dec 1 0) then b32_dec 1 0 else z in
  let z2 := if b32_ltb (b32_dec 45 0) z1 then b32_dec 45 0 else z1 in
  z2 = saturate (SF := Scalar_binary32 cosf sinf)
                (b32_dec 1 0) (b32_dec 45 0) z.
Proof.
  unfold saturate. cbn [flt Scalar_binary32].
  destruct (b32_ltb z (b32_dec 1 0)) eqn:E1; reflexivity.
Qed.

Lemma b32_saturate_range (lo hi v : binary32) :
  lo <> S754_nan -> hi <> S754_nan -> v <> S754_nan ->
  b32_leb lo hi = true ->
  (b32_ltb v lo = true -> b32_ltb hi v = false) ->
  b32_in_range lo hi
    (saturate (SF := Scalar_binary32 cosf sinf) lo hi v) = true.
Proof. intros. unfold saturate. now apply b32_clamp_range. Qed.

Lemma b32_saturate_nan (lo hi : binary32) :
  saturate (SF := Scalar_binary32 cosf sinf) lo hi S754_nan = S754_nan.
Proof.
  unfold saturate. cbn [flt Scalar_binary32].
  now rewrite b32_ltb_nan_l, b32_ltb_nan_r.
Qed.

Lemma b32_below_not_above_pitch (p : binary32) :
  b32_ltb p (b32_dec (-89) 0) = true -> b32_ltb (b32_dec 89 0) p = false.
Proof.
  intros E. destruct (b32_ltb (b32_dec 89 0) p) eqn:E1; trivial.
  rewrite (b32_above_not_below _ E1) in E. discriminate.
Qed.

Lemma b32_below_not_above_zoom (z : binary32) :
  b32_ltb z (b32_dec 1 0) = true -> b32_ltb (b32_dec 45 0) z = false.
Proof.
  change (b32_dec 1 0) with (S754_finite false 8388608 (-23)).
  change (b32_dec 45 0) with (S754_finite false 11796480 (-18)).
  unfold b32_ltb, SFltb.
  destruct z as [[]|[]| |[] m e]; cbn [SFcompare]; try congruence.
  destruct (e ?= -23)%Z eqn:E1; destruct (-18 ?= e)%Z eqn:E2;
    try congruence; try reflexivity.
  - apply Z.compare_eq in E1. subst e. discriminate.
  - apply Z.compare_eq in E1. subst e. discriminate.
  - apply Z.compare_eq in E2. subst e. discriminate.
  - rewrite Z.compare_lt_iff in E1, E2. lia.
Qed.
End Binary32Clamps.

(** ** binary32: where the basis is lost, and where it is not *)

Section Binary32Basis.
Variables cosf sinf : binary32 -> binary32.

(** A zero world-up leaves no right vector, whatever [cos] and [sin]
    return: the cross product is zero (or NaN), and [normalize] multiplies
    it by [1 / sqrt 0]. *)
Lemma b32_normalize_cross_zero (f : glm.vec3 binary32) :
  glm.normalize (SF := Scalar_binary32 cosf sinf)
    (glm.cross (SF := Scalar_binary32 cosf sinf) f b32_zero_vec)
  = b32_nan_vec.
Proof.
  destruct f as [[[]|[]| |[] mx ex] [[]|[]| |[] my ey] [[]|[]| |[] mz ez]];
    reflexivity.
Qed.

Lemma b32_normalize_cross_nan (f : glm.vec3 binary32) :
  glm.normalize (SF := Scalar_binary32 cosf sinf)
    (glm.cross (SF := Scalar_binary32 cosf sinf) b32_nan_vec f)
  = b32_nan_vec.
Proof. reflexivity. Qed.

Lemma b32_zero_world_up (position : glm.vec3 binary32) (yaw pitch : binary32) :
  let c := Camera (SF := Scalar_binary32 cosf sinf)
                  position b32_zero_vec yaw pitch in
  Right c = b32_nan_vec /\ Up c = b32_nan_vec.
Proof.
  cbn zeta.
  destruct (Camera_basis (SF := Scalar_binary32 cosf sinf)
                         position b32_zero_vec yaw pitch) as (Er & Eu).
  rewrite Eu, Er, b32_normalize_cross_zero. split; reflexivity.
Qed.
End Binary32Basis.

(** An infinite mouse offset makes the yaw infinite, and a basis of
    NaNs. *)
Lemma b32_infinite_yaw :
  ProcessMouseMovement (SF := Scalar_b32_ref)
    (S754_infinity false) (b32_dec 0 0) true b32_default_camera
  = mk_Camera b32_zero_vec b32_nan_vec b32_nan_vec b32_nan_vec
      (glm.mk_vec3 (S754_zero false) (b32_dec 1 0) (S754_zero false))
      (mk_EulerAngles (S754_infinity false) (S754_zero false))
      (b32_dec 25 1) (b32_dec 1 1) (b32_dec 45 0).
Proof. vm_compute. reflexivity. Qed.

(** Why right is computed before up: were up computed from the right
    vector the object held before the call, a camera whose right vector
    is stale (here zero) would get NaN for up, not (0, 1, 0). *)
Lemma updateCameraVectors_right_then_up :
  Up (updateCameraVectors (SF := Scalar_b32_ref)
        (set_Right b32_zero_vec b32_default_camera))
  <> glm.normalize (SF := Scalar_b32_ref)
       (glm.cross (SF := Scalar_b32_ref)
          (Right (set_Right b32_zero_vec b32_default_camera))
          (Front (updateCameraVectors (SF := Scalar_b32_ref)
                    (set_Right b32_zero_vec b32_default_camera)))).
Proof. vm_compute. discriminate. Qed.

(** Looking straight up in binary32, with the reference [cosf]: the float
    nearest to pi/2 is not pi/2, its cosine is about -4.4e-8 and not 0, so
    the cross product of front and world-up is tiny but not zero, and
    normalization still returns a basis whose dot products round to 0 and
    whose squared lengths round to 1. *)
Lemma b32_pole_camera_basis :
  Front b32_pole_camera
  = glm.mk_vec3 (S754_finite false 9022957 (-72))
                (S754_finite false 8388608 (-23))
                (S754_finite false 12303662 (-48)) /\
  glm.cross (SF := Scalar_b32_ref)
            (Front b32_pole_camera) (WorldUp b32_pole_camera)
  = glm.mk_vec3 (S754_finite true 12303662 (-48)) (S754_zero false)
                (S754_finite false 9022957 (-72)) /\
  Right b32_pole_camera
  = glm.mk_vec3 (S754_finite true 8388608 (-23)) (S754_zero false)
                (S754_finite false 12303662 (-48)) /\
  glm.dot (SF := Scalar_b32_ref)
          (Front b32_pole_camera) (Right b32_pole_camera) = S754_zero false /\
  glm.dot (SF := Scalar_b32_ref)
          (Front b32_pole_camera) (Up b32_pole_camera) = S754_zero false /\
  glm.dot (SF := Scalar_b32_ref)
          (Right b32_pole_camera) (Up b32_pole_camera) = S754_zero false /\
  glm.dot (SF := Scalar_b32_ref)
          (Front b32_pole_camera) (Front b32_pole_camera) = b32_dec 1 0 /\
  glm.dot (SF := Scalar_b32_ref)
          (Right b32_pole_camera) (Right b32_pole_camera) = b32_dec 1 0 /\
  glm.dot (SF := Scalar_b32_ref)
          (Up b32_pole_camera) (Up b32_pole_camera) = b32_dec 1 0.
Proof. b32_run. Qed.

(** An infinite [deltaTime] loses the position for good. *)
Lemma b32_infinite_deltaTime :
  Position
    (ProcessKeyboard (SF := Scalar_b32_ref) BACKWARD (S754_infinity false)
       (ProcessKeyboard (SF := Scalar_b32_ref) FORWARD (S754_infinity false)
          b32_default_camera))
  = b32_nan_vec.
Proof. vm_compute. reflexivity. Qed.


(** ** Exact arithmetic: the default camera *)

Section ExactCameras.
Local Open Scope R_scope.

Lemma default_camera_front_R :
  Front (Camera_default (F := R)) = glm.mk_vec3 0 0 (-1).
Proof.
  destruct (basis_current_exact
              (reachable_basis_current
                 (reach_Camera (F := R)
                    (glm.mk_vec3 (dec 0 0) (dec 0 0) (dec 0 0))
                    (glm.mk_vec3 (dec 0 0) (dec 1 0) (dec 0 0)) YAW PITCH)))
    as (Hf & _).
  unfold Camera_default. rewrite Hf.
  unfold _EulerAnglesRotate, YAW, PITCH. cbn [EulerAngles Camera Camera_body
    updateCameraVectors set_Up set_Right set_Front set_Pitch set_Yaw
    set_WorldUp set_Position set_Zoom set_MouseSensitivity set_MovementSpeed
    Yaw Pitch].
  rewrite !dec_R_int, radians_0, radians_m90.
  cbn [fcos fsin fmul Scalar_R].
  rewrite cos_neg, sin_neg, cos_PI2, sin_PI2, cos_0, sin_0.
  apply vec3_ext; cbn; ring.
Qed.

Lemma default_camera_basis_R :
  Right (Camera_default (F := R)) = glm.mk_vec3 1 0 0 /\
  Up (Camera_default (F := R)) = glm.mk_vec3 0 1 0.
Proof.
  destruct (Camera_basis (F := R)
              (glm.mk_vec3 (dec 0 0) (dec 0 0) (dec 0 0))
              (glm.mk_vec3 (dec 0 0) (dec 1 0) (dec 0 0)) YAW PITCH)
    as (Er & Eu).
  fold (Camera_default (F := R)) in Er, Eu.
  assert (R1 : Right (Camera_default (F := R)) = glm.mk_vec3 1 0 0).
  { rewrite Er, default_camera_front_R.
    replace (glm.cross (glm.mk_vec3 0 0 (-1))
               (glm.mk_vec3 (dec 0 0) (dec 1 0) (dec 0 0)))
      with (glm.mk_vec3 1 0 0)
      by (apply vec3_ext; cbn; lra).
    apply normalize_unit. unfold unit_vec; cbn; ring. }
  split; [exact R1|].
  rewrite Eu, R1, default_camera_front_R.
  replace (glm.cross (glm.mk_vec3 1 0 0) (glm.mk_vec3 0 0 (-1)))
    with (glm.mk_vec3 0 1 0)
    by (apply vec3_ext; cbn; ring).
  apply normalize_unit. unfold unit_vec; cbn; ring.
Qed.

End ExactCameras.

(** * The claims of the specification *)

(** ** C1: the basis invariant *)

Section Claim1.
Local Open Scope R_scope.



End Claim1.

(** ** C2: the pitch constraint of [ProcessMouseMovement] *)

Section Claim2.

(** C2, as the specification states it, fails for an offset that is no
    number: with [yoffset = NaN] the sum is NaN, both comparisons of the
    clamp are false, and the pitch is left NaN, which is not in
    [-89, 89]. *)
Lemma C2_counterexample :
  Pitch (EulerAngles
           (ProcessMouseMovement (SF := Scalar_b32_ref)
              (b32_dec 0 0) S754_nan true b32_default_camera)) = S754_nan /\
  b32_in_range (b32_dec (-89) 0) (b32_dec 89 0)
    (Pitch (EulerAngles
              (ProcessMouseMovement (SF := Scalar_b32_ref)
                 (b32_dec 0 0) S754_nan true b32_default_camera))) = false.
Proof. split; vm_compute; reflexivity. Qed.

(** C2 (amended): for every camera and every pair of offsets,
    [ProcessMouseMovement] with [constrainPitch = true] adds
    [xoffset * mouse_sensitivity] to yaw, adds
    [yoffset * mouse_sensitivity] to pitch and then clamps the pitch to
    [-89, 89]; whenever that sum is a number (not NaN) the pitch ends
    inside [-89, 89], and it is a number whenever the previous pitch,
    [yoffset] and the mouse sensitivity are finite.  The arithmetic is
    binary32, with any [cos] and [sin]. *)
Theorem C2_constrained_pitch :
  forall (cosf sinf : binary32 -> binary32) (c : _Camera binary32)
         (xoffset yoffset : binary32),
    let c' := ProcessMouseMovement (SF := Scalar_binary32 cosf sinf)
                                   xoffset yoffset true c in
    let sum := b32_add (Pitch (EulerAngles c))
                       (b32_mul yoffset (MouseSensitivity c)) in
    Yaw (EulerAngles c')
    = b32_add (Yaw (EulerAngles c)) (b32_mul xoffset (MouseSensitivity c)) /\
    Pitch (EulerAngles c')
    = saturate (SF := Scalar_binary32 cosf sinf)
               (b32_dec (-89) 0) (b32_dec 89 0) sum /\
    (sum <> S754_nan ->
     b32_in_range (b32_dec (-89) 0) (b32_dec 89 0)
                  (Pitch (EulerAngles c')) = true) /\
    (b32_finite (Pitch (EulerAngles c)) = true ->
     b32_finite yoffset = true ->
     b32_finite (MouseSensitivity c) = true ->
     b32_in_range (b32_dec (-89) 0) (b32_dec 89 0)
                  (Pitch (EulerAngles c')) = true).
Proof.
  intros cosf sinf c xoffset yoffset c' sum.
  assert (E : Pitch (EulerAngles c')
              = saturate (SF := Scalar_binary32 cosf sinf)
                         (b32_dec (-89) 0) (b32_dec 89 0) sum).
  { unfold c'. rewrite ProcessMouseMovement_angles. cbn [Pitch].
    apply (b32_pitch_clamp cosf sinf sum). }
  assert (Hrange : sum <> S754_nan ->
                   b32_in_range (b32_dec (-89) 0) (b32_dec 89 0)
                                (Pitch (EulerAngles c')) = true).
  { intros Hs. rewrite E. apply b32_saturate_range; trivial.
    - discriminate.
    - discriminate.
    - apply b32_below_not_above_pitch. }
  split; [|split; [|split]].
  - unfold c'. rewrite ProcessMouseMovement_angles. reflexivity.
  - exact E.
  - exact Hrange.
  - intros Hp Hy Hm. apply Hrange.
    apply b32_add_number; [exact Hp|]. now apply b32_mul_number.
Qed.

Lemma C2_constrained_pitch_witness :
  (b32_add (Pitch (EulerAngles b32_default_camera))
           (b32_mul (b32_dec 10000 0) (MouseSensitivity b32_default_camera))
   <> S754_nan) /\
  b32_finite (Pitch (EulerAngles b32_default_camera)) = true /\
  b32_finite (b32_dec 10000 0) = true /\
  b32_finite (MouseSensitivity b32_default_camera) = true /\
  b32_in_range (b32_dec (-89) 0) (b32_dec 89 0)
    (Pitch (EulerAngles
              (ProcessMouseMovement (SF := Scalar_b32_ref)
                 (b32_dec 0 0) (b32_dec 10000 0) true b32_default_camera)))
  = true.
Proof.
  assert (Hs : b32_add (Pitch (EulerAngles b32_default_camera))
                 (b32_mul (b32_dec 10000 0)
                          (MouseSensitivity b32_default_camera))
               <> S754_nan) by (vm_compute; discriminate).
  assert (Hp : b32_finite (Pitch (EulerAngles b32_default_camera)) = true)
    by reflexivity.
  assert (Hy : b32_finite (b32_dec 10000 0) = true) by reflexivity.
  assert (Hm : b32_finite (MouseSensitivity b32_default_camera) = true)
    by reflexivity.
  pose proof (C2_constrained_pitch cosf_ref sinf_ref b32_default_camera
                (b32_dec 0 0) (b32_dec 10000 0)) as (_ & _ & H1 & H2).
  pose proof (H1 Hs) as R1. pose proof (H2 Hp Hy Hm) as R2.
  repeat (split; [assumption|]). exact R2.
Defined.
End Claim2.

(** ** C3: the zoom of [ProcessMouseScroll] *)

Section Claim3.

(** C3, as the specification states it, fails for an offset that is no
    number: [zoom - NaN] is NaN, both comparisons of the clamp are false,
    and the zoom is left NaN, which is not in [1, 45]. *)
Lemma C3_counterexample :
  Zoom (ProcessMouseScroll (SF := Scalar_b32_ref) S754_nan b32_default_camera)
  = S754_nan /\
  b32_in_range (b32_dec 1 0) (b32_dec 45 0)
    (Zoom (ProcessMouseScroll (SF := Scalar_b32_ref) S754_nan
                              b32_default_camera)) = false.
Proof. split; vm_compute; reflexivity. Qed.

(** C3 (amended): for every camera and every [yoffset],
    [ProcessMouseScroll] sets zoom to the previous zoom minus [yoffset],
    saturated into [1, 45]; whenever that difference is a number (not NaN)
    the zoom ends inside [1, 45], and it is a number whenever the previous
    zoom is finite and [yoffset] is not NaN.  The arithmetic is binary32,
    with any [cos] and [sin]. *)
Theorem C3_scroll_zoom :
  forall (cosf sinf : binary32 -> binary32) (c : _Camera binary32)
         (yoffset : binary32),
    let c' := ProcessMouseScroll (SF := Scalar_binary32 cosf sinf) yoffset c in
    let diff := b32_sub (Zoom c) yoffset in
    Zoom c' = saturate (SF := Scalar_binary32 cosf sinf)
                       (b32_dec 1 0) (b32_dec 45 0) diff /\
    (diff <> S754_nan ->
     b32_in_range (b32_dec 1 0) (b32_dec 45 0) (Zoom c') = true) /\
    (b32_finite (Zoom c) = true -> yoffset <> S754_nan ->
     b32_in_range (b32_dec 1 0) (b32_dec 45 0) (Zoom c') = true).
Proof.
  intros cosf sinf c yoffset c' diff.
  assert (E : Zoom c' = saturate (SF := Scalar_binary32 cosf sinf)
                                 (b32_dec 1 0) (b32_dec 45 0) diff).
  { unfold c'. rewrite ProcessMouseScroll_zoom.
    apply (b32_zoom_clamp cosf sinf diff). }
  assert (Hrange : diff <> S754_nan ->
                   b32_in_range (b32_dec 1 0) (b32_dec 45 0) (Zoom c') = true).
  { intros Hd. rewrite E. apply b32_saturate_range; trivial.
    - discriminate.
    - discriminate.
    - apply b32_below_not_above_zoom. }
  split; [exact E|]. split; [exact Hrange|].
  intros Hz Hy. apply Hrange. now apply b32_sub_number.
Qed.

Lemma C3_scroll_zoom_witness :
  b32_sub (Zoom b32_default_camera) (b32_dec 100 0) <> S754_nan /\
  b32_finite (Zoom b32_default_camera) = true /\
  b32_dec 100 0 <> S754_nan /\
  b32_in_range (b32_dec 1 0) (b32_dec 45 0)
    (Zoom (ProcessMouseScroll (SF := Scalar_b32_ref) (b32_dec 100 0)
                              b32_default_camera)) = true.
Proof.
  assert (Hd : b32_sub (Zoom b32_default_camera) (b32_dec 100 0)
               <> S754_nan) by (vm_compute; discriminate).
  assert (Hz : b32_finite (Zoom b32_default_camera) = true) by reflexivity.
  assert (Hy : b32_dec 100 0 <> S754_nan) by (vm_compute; discriminate).
  pose proof (C3_scroll_zoom cosf_ref sinf_ref b32_default_camera
                             (b32_dec 100 0)) as (_ & H1 & H2).
  pose proof (H1 Hd) as R1. pose proof (H2 Hz Hy) as R2.
  repeat (split; [assumption|]). exact R2.
Defined.
End Claim3.

(** ** C4: the basis recomputation *)

(** C4: [updateCameraVectors] sets front to the normalization of
    [(cos(radians yaw) * cos(radians pitch), sin(radians pitch),
    sin(radians yaw) * cos(radians pitch))], then right to
    [normalize (cross front world_up)] with the new front, then up to
    [normalize (cross right front)] with the new right and the new front;
    nothing else in the object changes. *)
Theorem C4_updateCameraVectors_formula :
  forall (F : Type) (SF : Scalar F) (c : _Camera F),
    let yaw := Yaw (EulerAngles c) in
    let pitch := Pitch (EulerAngles c) in
    let c' := updateCameraVectors c in
    Front c'
    = glm.normalize
        (glm.mk_vec3
           (fcos (glm.radians yaw) * fcos (glm.radians pitch))%sc
           (fsin (glm.radians pitch))
           (fsin (glm.radians yaw) * fcos (glm.radians pitch))%sc) /\
    Right c' = glm.normalize (glm.cross (Front c') (WorldUp c)) /\
    Up c' = glm.normalize (glm.cross (Right c') (Front c')) /\
    Front c' = spec_front yaw pitch /\
    Right c' = spec_right yaw pitch (WorldUp c) /\
    Up c' = spec_up yaw pitch (WorldUp c) /\
    c' = set_Up (Up c') (set_Right (Right c') (set_Front (Front c') c)).
Proof. intros F SF c. cbn zeta. repeat split. Qed.

(** ** C5: [ProcessKeyboard] translates the position *)

(** C5: for each of the four directions and every [deltaTime],
    [ProcessKeyboard] moves position by [front * velocity] (FORWARD, added;
    BACKWARD, subtracted) or [right * velocity] (LEFT, subtracted; RIGHT,
    added), where [velocity = movement_speed * deltaTime]. *)
Theorem C5_ProcessKeyboard_translation :
  forall (F : Type) (SF : Scalar F) (c : _Camera F) (deltaTime : F),
    let velocity := (MovementSpeed c * deltaTime)%sc in
    Position (ProcessKeyboard FORWARD deltaTime c)
    = (Position c + Front c * velocity)%V /\
    Position (ProcessKeyboard BACKWARD deltaTime c)
    = (Position c - Front c * velocity)%V /\
    Position (ProcessKeyboard LEFT deltaTime c)
    = (Position c - Right c * velocity)%V /\
    Position (ProcessKeyboard RIGHT deltaTime c)
    = (Position c + Right c * velocity)%V.
Proof. intros F SF c deltaTime. cbn zeta. repeat split. Qed.

(** ** C6: forward, then backward *)

Section Claim6.
Local Open Scope R_scope.

(** C6, as the specification states it, fails in binary32: from
    [Camera(glm::vec3(0, 0, 0.1f))] with [deltaTime = 1], FORWARD takes
    z from 0.1f to the float nearest to 0.1f - 2.5, and BACKWARD adds 2.5
    back to that rounded value: z ends at 13421760 * 2^-27, not at
    0.1f = 13421773 * 2^-27. *)
Lemma C6_counterexample :
  glm.z (Position b32_offset_camera) = S754_finite false 13421773 (-27) /\
  glm.z (Position
           (ProcessKeyboard (SF := Scalar_b32_ref) BACKWARD (b32_dec 1 0)
              (ProcessKeyboard (SF := Scalar_b32_ref) FORWARD (b32_dec 1 0)
                 b32_offset_camera)))
  = S754_finite false 13421760 (-27) /\
  Position
    (ProcessKeyboard (SF := Scalar_b32_ref) BACKWARD (b32_dec 1 0)
       (ProcessKeyboard (SF := Scalar_b32_ref) FORWARD (b32_dec 1 0)
          b32_offset_camera))
  <> Position b32_offset_camera.
Proof.
  split; [vm_compute; reflexivity|]. split; [vm_compute; reflexivity|].
  vm_compute. discriminate.
Qed.

(** C6 (amended): with any arithmetic, [ProcessKeyboard(FORWARD, dt)]
    followed by [ProcessKeyboard(BACKWARD, dt)] leaves the camera as it
    was except for position, which becomes [(p + d) - d] for the one
    displacement [d = front * (movement_speed * dt)]; in exact arithmetic
    that is the original position, so the camera is back in its original
    state. *)
Theorem C6_forward_backward :
  (forall (F : Type) (SF : Scalar F) (c : _Camera F) (dt : F),
      let d := (Front c * (MovementSpeed c * dt)%sc)%V in
      ProcessKeyboard BACKWARD dt (ProcessKeyboard FORWARD dt c)
      = set_Position ((Position c + d) - d)%V c) /\
  (forall (c : _Camera R) (dt : R),
      ProcessKeyboard BACKWARD dt (ProcessKeyboard FORWARD dt c) = c).
Proof.
  split.
  - intros F SF c dt. reflexivity.
  - intros c dt.
    transitivity (set_Position (Position c) c); [|destruct c; reflexivity].
    unfold ProcessKeyboard; cbn. unfold set_Position; cbn. f_equal.
    apply vec3_ext; cbn; ring.
Qed.
End Claim6.

(** ** C7: construction with every default *)

Section Claim7.
Local Open Scope R_scope.

(** C7: [Camera()] holds position (0,0,0), world-up (0,1,0), yaw -90,
    pitch 0, movement speed 2.5, mouse sensitivity 0.1 and zoom 45, and
    its recomputed basis has front (0,0,-1).  In exact arithmetic these
    are equalities between real numbers, with right (1,0,0) and up
    (0,1,0).  In binary32, with any [cos] and [sin], the stored members
    are the floats of the literals [0.0f], [1.0f], [-90.0f], [2.5f],
    [0.1f], [45.0f]; with the reference [cos] and [sin] the recomputed
    front is (-12303662 * 2^-48, 0, -1), about (-4.4e-8, 0, -1), within
    1e-5 of (0,0,-1) in every component, with right
    (1, 0, -12303662 * 2^-48) and up (0, 1, 0). *)
Theorem C7_default_construction :
  (Position (Camera_default (F := R)) = glm.mk_vec3 0 0 0 /\
   WorldUp (Camera_default (F := R)) = glm.mk_vec3 0 1 0 /\
   Yaw (EulerAngles (Camera_default (F := R))) = -90 /\
   Pitch (EulerAngles (Camera_default (F := R))) = 0 /\
   MovementSpeed (Camera_default (F := R)) = 2.5 /\
   MouseSensitivity (Camera_default (F := R)) = 0.1 /\
   Zoom (Camera_default (F := R)) = 45 /\
   Front (Camera_default (F := R)) = glm.mk_vec3 0 0 (-1) /\
   Right (Camera_default (F := R)) = glm.mk_vec3 1 0 0 /\
   Up (Camera_default (F := R)) = glm.mk_vec3 0 1 0) /\
  (forall cosf sinf : binary32 -> binary32,
      let c := Camera_default (SF := Scalar_binary32 cosf sinf) in
      Position c
      = glm.mk_vec3 (S754_zero false) (S754_zero false) (S754_zero false) /\
      WorldUp c
      = glm.mk_vec3 (S754_zero false) (S754_finite false 8388608 (-23))
                    (S754_zero false) /\
      Yaw (EulerAngles c) = S754_finite true 11796480 (-17) /\
      Pitch (EulerAngles c) = S754_zero false /\
      MovementSpeed c = S754_finite false 10485760 (-22) /\
      MouseSensitivity c = S754_finite false 13421773 (-27) /\
      Zoom c = S754_finite false 11796480 (-18)) /\
  (Front b32_default_camera
   = glm.mk_vec3 (S754_finite true 12303662 (-48)) (S754_zero false)
                 (S754_finite true 8388608 (-23)) /\
   b32_near (glm.x (Front b32_default_camera)) 0 = true /\
   b32_near (glm.y (Front b32_default_camera)) 0 = true /\
   b32_near (glm.z (Front b32_default_camera)) (-1) = true /\
   Right b32_default_camera
   = glm.mk_vec3 (S754_finite false 8388608 (-23)) (S754_zero false)
                 (S754_finite true 12303662 (-48)) /\
   Up b32_default_camera
   = glm.mk_vec3 (S754_zero false) (S754_finite false 8388608 (-23))
                 (S754_zero false)).
Proof.
  split; [|split].
  - repeat split.
    + apply vec3_ext; cbn; lra.
    + apply vec3_ext; cbn; lra.
    + cbn; lra.
    + cbn; lra.
    + cbn; lra.
    + cbn; lra.
    + cbn; lra.
    + exact default_camera_front_R.
    + apply default_camera_basis_R.
    + apply default_camera_basis_R.
  - intros cosf sinf. cbn zeta. repeat split.
  - b32_run.
Qed.
End Claim7.

(** ** C8: [ProcessKeyboard] changes the position only *)

(** C8: for every direction and [deltaTime], [ProcessKeyboard] leaves yaw,
    pitch, front, right, up, world-up, movement speed, mouse sensitivity
    and zoom as they were: the object after the call is the object before
    it with a new position. *)
Theorem C8_ProcessKeyboard_frame :
  forall (F : Type) (SF : Scalar F) (direction : Camera_Movement)
         (deltaTime : F) (c : _Camera F),
    let c' := ProcessKeyboard direction deltaTime c in
    Yaw (EulerAngles c') = Yaw (EulerAngles c) /\
    Pitch (EulerAngles c') = Pitch (EulerAngles c) /\
    Front c' = Front c /\ Right c' = Right c /\ Up c' = Up c /\
    WorldUp c' = WorldUp c /\
    MovementSpeed c' = MovementSpeed c /\
    MouseSensitivity c' = MouseSensitivity c /\
    Zoom c' = Zoom c /\
    c' = set_Position (Position c') c.
Proof.
  intros F SF direction deltaTime c. cbn zeta.
  destruct (ProcessKeyboard_frame direction deltaTime c) as [p ->].
  repeat split.
Qed.

(** ** C9: [ProcessMouseMovement] without the constraint *)

(** C9: with [constrainPitch = false], [ProcessMouseMovement] leaves the
    pitch at the previous pitch plus [yoffset * mouse_sensitivity] (and
    the yaw at the previous yaw plus [xoffset * mouse_sensitivity]), with
    no clamp, and the basis it returns with is the one of these angles.
    The pitch may leave [-89, 89]: from [Camera()], [yoffset = 1000] ends
    at pitch 100. *)
Theorem C9_unconstrained_pitch :
  (forall (F : Type) (SF : Scalar F) (c : _Camera F) (xoffset yoffset : F),
      let c' := ProcessMouseMovement xoffset yoffset false c in
      Yaw (EulerAngles c')
      = (Yaw (EulerAngles c) + xoffset * MouseSensitivity c)%sc /\
      Pitch (EulerAngles c')
      = (Pitch (EulerAngles c) + yoffset * MouseSensitivity c)%sc /\
      basis_current c') /\
  (forall cosf sinf : binary32 -> binary32,
      let c' := ProcessMouseMovement (SF := Scalar_binary32 cosf sinf)
                  (b32_dec 0 0) (b32_dec 1000 0) false
                  (Camera_default (SF := Scalar_binary32 cosf sinf)) in
      Pitch (EulerAngles c') = b32_dec 100 0 /\
      b32_in_range (b32_dec (-89) 0) (b32_dec 89 0) (Pitch (EulerAngles c'))
      = false).
Proof.
  split.
  - intros F SF c xoffset yoffset. cbn zeta.
    rewrite ProcessMouseMovement_angles. cbn [Yaw Pitch].
    repeat split.
  - intros cosf sinf. cbn zeta.
    rewrite ProcessMouseMovement_angles. cbn [Pitch].
    split; vm_compute; reflexivity.
Qed.

(** ** C10: what the constructors store *)

Section Claim10.
Local Open Scope R_scope.


End Claim10.

(** * More of the header: what every reachable camera keeps *)

Section Invariants.
Context {F : Type} {SF : Scalar F}.

Lemma ProcessKeyboard_fields direction deltaTime (c : _Camera F) :
  let c' := ProcessKeyboard direction deltaTime c in
  EulerAngles c' = EulerAngles c /\ Front c' = Front c /\
  Right c' = Right c /\ Up c' = Up c /\ WorldUp c' = WorldUp c /\
  MovementSpeed c' = MovementSpeed c /\
  MouseSensitivity c' = MouseSensitivity c /\ Zoom c' = Zoom c.
Proof.
  cbn zeta. destruct (ProcessKeyboard_frame direction deltaTime c) as [p ->].
  repeat split.
Qed.

Lemma reachable_speed_sensitivity (c : _Camera F) :
  reachable c ->
  MovementSpeed c = SPEED /\ MouseSensitivity c = SENSITIVITY.
Proof.
  induction 1 as [ | | d dt c Hc IH | xo yo cp c Hc IH | yo c Hc IH ].
  - split; reflexivity.
  - split; reflexivity.
  - destruct (ProcessKeyboard_fields d dt c) as (_ & _ & _ & _ & _ & -> & -> & _).
    exact IH.
  - destruct (ProcessMouseMovement_frame xo yo cp c) as (_ & _ & -> & -> & _).
    exact IH.
  - destruct (ProcessMouseScroll_frame yo c) as [z ->]. exact IH.
Qed.

(** X1: no method assigns the movement speed or the mouse sensitivity
    after the constructor: in every reachable state, with any arithmetic,
    they are the defaults [SPEED] and [SENSITIVITY]. *)
Theorem X1_speed_and_sensitivity_are_constant :
  forall c : _Camera F,
    reachable c ->
    MovementSpeed c = SPEED /\ MouseSensitivity c = SENSITIVITY.
Proof. exact reachable_speed_sensitivity. Qed.

(** X3: [ProcessMouseScroll] changes the zoom and nothing else: position,
    angles, basis, world-up, speed and sensitivity are as before, so the
    basis is not recomputed. *)
Theorem X3_ProcessMouseScroll_frame :
  forall (yoffset : F) (c : _Camera F),
    let c' := ProcessMouseScroll yoffset c in
    Position c' = Position c /\ EulerAngles c' = EulerAngles c /\
    Front c' = Front c /\ Right c' = Right c /\ Up c' = Up c /\
    WorldUp c' = WorldUp c /\ MovementSpeed c' = MovementSpeed c /\
    MouseSensitivity c' = MouseSensitivity c /\
    c' = set_Zoom (Zoom c') c.
Proof.
  intros yoffset c. cbn zeta.
  destruct (ProcessMouseScroll_frame yoffset c) as [z ->]. repeat split.
Qed.

(** X4: [ProcessMouseMovement], with the pitch constraint on or off, never
    touches position, world-up, movement speed, mouse sensitivity or
    zoom. *)
Theorem X4_ProcessMouseMovement_frame :
  forall (xoffset yoffset : F) (constrainPitch : bool) (c : _Camera F),
    let c' := ProcessMouseMovement xoffset yoffset constrainPitch c in
    Position c' = Position c /\ WorldUp c' = WorldUp c /\
    MovementSpeed c' = MovementSpeed c /\
    MouseSensitivity c' = MouseSensitivity c /\ Zoom c' = Zoom c.
Proof. intros. apply ProcessMouseMovement_frame. Qed.
End Invariants.

Section ZoomInvariant.
Local Open Scope R_scope.

Lemma reachable_zoom_R (c : _Camera R) : reachable c -> 1 <= Zoom c <= 45.
Proof.
  induction 1 as [ | | d dt c Hc IH | xo yo cp c Hc IH | yo c Hc IH ].
  - cbn. lra.
  - cbn. lra.
  - destruct (ProcessKeyboard_frame d dt c) as [p ->]. exact IH.
  - destruct (ProcessMouseMovement_frame xo yo cp c) as (_ & _ & _ & _ & ->).
    exact IH.
  - apply ProcessMouseScroll_zoom_R.
Qed.

Lemma reachable_zoom_b32 (cosf sinf : binary32 -> binary32)
      (c : _Camera binary32) :
  reachable (SF := Scalar_binary32 cosf sinf) c ->
  b32_in_range (b32_dec 1 0) (b32_dec 45 0) (Zoom c) = true \/
  Zoom c = S754_nan.
Proof.
  induction 1 as [ | | d dt c Hc IH | xo yo cp c Hc IH | yo c Hc IH ].
  - left. reflexivity.
  - left. reflexivity.
  - destruct (ProcessKeyboard_frame (SF := Scalar_binary32 cosf sinf) d dt c)
      as [p ->]. exact IH.
  - destruct (ProcessMouseMovement_frame (SF := Scalar_binary32 cosf sinf)
                xo yo cp c) as (_ & _ & _ & _ & ->).
    exact IH.
  - rewrite ProcessMouseScroll_zoom, (b32_zoom_clamp cosf sinf).
    generalize (fsub (Scalar := Scalar_binary32 cosf sinf) (Zoom c) yo).
    intros z.
    assert (D : z = S754_nan \/ z <> S754_nan)
      by (destruct z; [right|right|left|right]; easy).
    destruct D as [-> | D].
    + right. apply b32_saturate_nan.
    + left. apply b32_saturate_range; trivial; try discriminate.
      apply b32_below_not_above_zoom.
Qed.

(** X2: the zoom of every reachable camera is a field of view in
    [1, 45]: it starts at 45 and only [ProcessMouseScroll] changes it.  In
    exact arithmetic that is unconditional; in binary32, with any [cos]
    and [sin], the zoom is inside [1, 45] or it is NaN. *)
Theorem X2_zoom_invariant :
  (forall c : _Camera R, reachable c -> 1 <= Zoom c <= 45) /\
  (forall (cosf sinf : binary32 -> binary32) (c : _Camera binary32),
      reachable (SF := Scalar_binary32 cosf sinf) c ->
      b32_in_range (b32_dec 1 0) (b32_dec 45 0) (Zoom c) = true \/
      Zoom c = S754_nan).
Proof. split; [exact reachable_zoom_R | exact reachable_zoom_b32]. Qed.

Lemma X2_zoom_invariant_witness :
  reachable (ProcessMouseScroll (-7) (Camera_default (F := R))) /\
  1 <= Zoom (ProcessMouseScroll (-7) (Camera_default (F := R))) <= 45 /\
  reachable (SF := Scalar_b32_ref)
    (ProcessMouseScroll (SF := Scalar_b32_ref) (b32_dec 7 0)
                        b32_default_camera) /\
  (b32_in_range (b32_dec 1 0) (b32_dec 45 0)
     (Zoom (ProcessMouseScroll (SF := Scalar_b32_ref) (b32_dec 7 0)
                               b32_default_camera)) = true \/
   Zoom (ProcessMouseScroll (SF := Scalar_b32_ref) (b32_dec 7 0)
                            b32_default_camera) = S754_nan).
Proof.
  assert (H1 : reachable (ProcessMouseScroll (-7) (Camera_default (F := R))))
    by (apply reach_ProcessMouseScroll, reach_Camera).
  assert (H2 : reachable (SF := Scalar_b32_ref)
                 (ProcessMouseScroll (SF := Scalar_b32_ref) (b32_dec 7 0)
                                     b32_default_camera))
    by (apply reach_ProcessMouseScroll, reach_Camera).
  destruct X2_zoom_invariant as (A & B).
  pose proof (A _ H1) as R1. pose proof (B cosf_ref sinf_ref _ H2) as R2.
  repeat (split; [assumption|]). exact R2.
Defined.
End ZoomInvariant.

Section InvariantWitnesses.
Local Open Scope R_scope.

Lemma X1_speed_and_sensitivity_are_constant_witness :
  reachable (ProcessKeyboard FORWARD 1 (Camera_default (F := R))) /\
  MovementSpeed (ProcessKeyboard FORWARD 1 (Camera_default (F := R)))
  = SPEED /\
  MouseSensitivity (ProcessKeyboard FORWARD 1 (Camera_default (F := R)))
  = SENSITIVITY.
Proof.
  assert (Hr : reachable (ProcessKeyboard FORWARD 1 (Camera_default (F := R))))
    by (apply reach_ProcessKeyboard, reach_Camera).
  split; [exact Hr|].
  exact (X1_speed_and_sensitivity_are_constant Hr).
Defined.

End InvariantWitnesses.

(** * More of the header: how the handlers compose *)

Section AnyComposition.
Context {F : Type} {SF : Scalar F}.

(** What a keyboard event does, direction by direction. *)
Lemma ProcessKeyboard_eq direction deltaTime (c : _Camera F) :
  ProcessKeyboard direction deltaTime c
  = set_Position
      (match direction with
       | FORWARD => Position c + Front c * (MovementSpeed c * deltaTime)%sc
       | BACKWARD => Position c - Front c * (MovementSpeed c * deltaTime)%sc
       | LEFT => Position c - Right c * (MovementSpeed c * deltaTime)%sc
       | RIGHT => Position c + Right c * (MovementSpeed c * deltaTime)%sc
       end)%V c.
Proof. destruct direction; reflexivity. Qed.

(** A mouse event stores the new angles and recomputes the basis. *)
Lemma ProcessMouseMovement_eq xoffset yoffset constrainPitch (c : _Camera F) :
  let c' := ProcessMouseMovement xoffset yoffset constrainPitch c in
  c' = updateCameraVectors
         (set_Pitch (Pitch (EulerAngles c'))
                    (set_Yaw (Yaw (EulerAngles c')) c)).
Proof.
  unfold ProcessMouseMovement. destruct constrainPitch; cbn.
  - destruct (flt (dec 89 0) _); cbn; destruct (flt _ (dec (-89) 0));
      reflexivity.
  - reflexivity.
Qed.

Lemma set_angles_same (c : _Camera F) :
  set_Pitch (Pitch (EulerAngles c)) (set_Yaw (Yaw (EulerAngles c)) c) = c.
Proof. destruct c as [p f u r w [y t] ms se z]; reflexivity. Qed.

(** Recomputing a basis that is current changes nothing. *)
Lemma updateCameraVectors_fixed (c : _Camera F) :
  basis_current c -> updateCameraVectors c = c.
Proof.
  destruct c as [p f u r w e ms se z]. unfold basis_current; cbn.
  intros (Hf & Hr & Hu). subst f r u. reflexivity.
Qed.
End AnyComposition.

Section Composition.
Local Open Scope R_scope.

(** X12: in exact arithmetic a mouse event with zero offsets changes
    nothing in a reachable camera, provided the pitch constraint is off or
    the pitch is inside [-89, 89]: the angles stay and the recomputed
    basis is the one the camera holds. *)
Theorem X12_zero_mouse_movement :
  forall (c : _Camera R) (constrainPitch : bool),
    reachable c ->
    (constrainPitch = false \/ -89 <= Pitch (EulerAngles c) <= 89) ->
    ProcessMouseMovement 0 0 constrainPitch c = c.
Proof.
  intros c cp Hc Hp.
  assert (Ey : Yaw (EulerAngles (ProcessMouseMovement 0 0 cp c))
               = Yaw (EulerAngles c)).
  { rewrite ProcessMouseMovement_angles. cbn [Yaw fadd fmul Scalar_R]. ring. }
  assert (Ep : Pitch (EulerAngles (ProcessMouseMovement 0 0 cp c))
               = Pitch (EulerAngles c)).
  { destruct cp.
    - destruct Hp as [Hp|Hp]; [discriminate|].
      destruct (ProcessMouseMovement_pitch_R c 0 0) as (E & _).
      rewrite E.
      replace (Pitch (EulerAngles c) + 0 * MouseSensitivity c)
        with (Pitch (EulerAngles c)) by ring.
      rewrite saturate_R by lra. unfold Rmax, Rmin.
      destruct (Rle_dec 89 (Pitch (EulerAngles c)));
        destruct (Rle_dec (-89) _); lra.
    - rewrite ProcessMouseMovement_angles.
      cbn [Pitch fadd fmul Scalar_R]. ring. }
  rewrite ProcessMouseMovement_eq, Ey, Ep, set_angles_same.
  apply updateCameraVectors_fixed, reachable_basis_current, Hc.
Qed.

Lemma X12_zero_mouse_movement_witness :
  reachable (Camera_default (F := R)) /\
  (true = false \/
   -89 <= Pitch (EulerAngles (Camera_default (F := R))) <= 89) /\
  ProcessMouseMovement 0 0 true (Camera_default (F := R))
  = Camera_default (F := R).
Proof.
  assert (Hr : reachable (Camera_default (F := R))) by apply reach_Camera.
  assert (Hp : true = false \/
               -89 <= Pitch (EulerAngles (Camera_default (F := R))) <= 89)
    by (right; cbn; lra).
  split; [exact Hr|]. split; [exact Hp|].
  exact (X12_zero_mouse_movement Hr Hp).
Defined.

(** X13: a pitch the constructor accepted above 89 does not survive the
    first constrained mouse event: in exact arithmetic, whatever the
    horizontal offset and with no vertical offset at all, the pitch is
    brought down to 89 (and one below -89 is brought up to -89). *)
Theorem X13_constructor_pitch_is_clamped_later :
  forall (position up : glm.vec3 R) (yaw pitch xoffset : R),
    let c := Camera position up yaw pitch in
    (89 < pitch ->
     Pitch (EulerAngles (ProcessMouseMovement xoffset 0 true c)) = 89) /\
    (pitch < -89 ->
     Pitch (EulerAngles (ProcessMouseMovement xoffset 0 true c)) = -89).
Proof.
  intros position up yaw pitch xoffset c.
  destruct (ProcessMouseMovement_pitch_R c xoffset 0) as (E & _).
  rewrite E. change (Pitch (EulerAngles c)) with pitch.
  replace (pitch + 0 * MouseSensitivity c) with pitch by ring.
  rewrite saturate_R by lra. unfold Rmax, Rmin.
  split; intros Hp; destruct (Rle_dec 89 pitch);
    destruct (Rle_dec (-89) _); lra.
Qed.

Lemma X13_constructor_pitch_is_clamped_later_witness :
  89 < 120 /\
  Pitch (EulerAngles
           (ProcessMouseMovement 5 0 true
              (Camera (glm.mk_vec3 0 0 0) (glm.mk_vec3 0 1 0) (-90) 120)))
  = 89.
Proof.
  assert (H : 89 < 120) by lra.
  split; [exact H|].
  exact (proj1 (X13_constructor_pitch_is_clamped_later
                  (glm.mk_vec3 0 0 0) (glm.mk_vec3 0 1 0) (-90) 120 5) H).
Defined.
End Composition.

(** * More of the header: values that are not numbers *)

Section Binary32Edges.
Variables cosf sinf : binary32 -> binary32.

Lemma b32_mul_nan_r (a : binary32) : b32_mul a S754_nan = S754_nan.
Proof. destruct a; reflexivity. Qed.

Lemma b32_add_nan_r (a : binary32) : b32_add a S754_nan = S754_nan.
Proof. destruct a; reflexivity. Qed.

Lemma b32_sub_nan_r (a : binary32) : b32_sub a S754_nan = S754_nan.
Proof. destruct a; reflexivity. Qed.

(** X14: a [deltaTime] that is NaN destroys the position and nothing
    else: in binary32, for every camera and every direction,
    [ProcessKeyboard] leaves all three coordinates NaN, whatever the
    camera's front, right and speed. *)
Theorem X14_nan_deltaTime :
  forall (c : _Camera binary32) (direction : Camera_Movement),
    ProcessKeyboard (SF := Scalar_binary32 cosf sinf) direction S754_nan c
    = set_Position b32_nan_vec c.
Proof.
  intros c direction. rewrite ProcessKeyboard_eq. f_equal.
  destruct direction; unfold glm.vadd, glm.vsub, glm.vscale;
    cbn [glm.x glm.y glm.z fadd fsub fmul Scalar_binary32];
    rewrite !b32_mul_nan_r, ?b32_add_nan_r, ?b32_sub_nan_r; reflexivity.
Qed.

Lemma b32_add_inf (a : binary32) (s : bool) :
  b32_finite a = true -> b32_add a (S754_infinity s) = S754_infinity s.
Proof. destruct a; cbn; try discriminate; reflexivity. Qed.

Lemma b32_sub_inf (a : binary32) (s : bool) :
  b32_finite a = true -> b32_sub a (S754_infinity s) = S754_infinity (negb s).
Proof. destruct a; cbn; try discriminate; reflexivity. Qed.

(** X15: an infinite vertical offset is clamped like any other.  In
    binary32, for every reachable camera whose pitch is finite,
    [ProcessMouseMovement] with [constrainPitch = true] ends at pitch 89
    for [yoffset = +infinity] and at -89 for [yoffset = -infinity]. *)
Theorem X15_infinite_yoffset :
  forall (c : _Camera binary32) (xoffset : binary32),
    reachable (SF := Scalar_binary32 cosf sinf) c ->
    b32_finite (Pitch (EulerAngles c)) = true ->
    Pitch (EulerAngles
             (ProcessMouseMovement (SF := Scalar_binary32 cosf sinf)
                xoffset (S754_infinity false) true c)) = b32_dec 89 0 /\
    Pitch (EulerAngles
             (ProcessMouseMovement (SF := Scalar_binary32 cosf sinf)
                xoffset (S754_infinity true) true c)) = b32_dec (-89) 0.
Proof.
  intros c xoffset Hc Hp.
  destruct (reachable_speed_sensitivity Hc) as (_ & Hs).
  rewrite !ProcessMouseMovement_angles. cbn [Pitch]. rewrite Hs.
  cbn [fadd fmul flt SENSITIVITY dec Scalar_binary32].
  change (b32_mul (S754_infinity false) (b32_dec 1 1))
    with (S754_infinity false).
  change (b32_mul (S754_infinity true) (b32_dec 1 1))
    with (S754_infinity true).
  rewrite !b32_add_inf by exact Hp.
  split; reflexivity.
Qed.

(** X16: an infinite scroll pins the zoom at a bound.  In binary32, for
    every camera whose zoom is finite, [ProcessMouseScroll] ends at zoom 1
    for [yoffset = +infinity] and at zoom 45 for [yoffset = -infinity]. *)
Theorem X16_infinite_scroll :
  forall c : _Camera binary32,
    b32_finite (Zoom c) = true ->
    Zoom (ProcessMouseScroll (SF := Scalar_binary32 cosf sinf)
                             (S754_infinity false) c) = b32_dec 1 0 /\
    Zoom (ProcessMouseScroll (SF := Scalar_binary32 cosf sinf)
                             (S754_infinity true) c) = b32_dec 45 0.
Proof.
  intros c Hz. rewrite !ProcessMouseScroll_zoom.
  cbn [fsub flt dec Scalar_binary32].
  rewrite !b32_sub_inf by exact Hz. split; reflexivity.
Qed.
End Binary32Edges.

Lemma X15_infinite_yoffset_witness :
  reachable (SF := Scalar_b32_ref) b32_default_camera /\
  b32_finite (Pitch (EulerAngles b32_default_camera)) = true /\
  Pitch (EulerAngles
           (ProcessMouseMovement (SF := Scalar_b32_ref)
              (b32_dec 0 0) (S754_infinity false) true b32_default_camera))
  = b32_dec 89 0.
Proof.
  assert (Hr : reachable (SF := Scalar_b32_ref) b32_default_camera)
    by apply reach_Camera.
  assert (Hp : b32_finite (Pitch (EulerAngles b32_default_camera)) = true)
    by reflexivity.
  split; [exact Hr|]. split; [exact Hp|].
  exact (proj1 (X15_infinite_yoffset (b32_dec 0 0) Hr Hp)).
Defined.

Lemma X16_infinite_scroll_witness :
  b32_finite (Zoom b32_default_camera) = true /\
  Zoom (ProcessMouseScroll (SF := Scalar_b32_ref) (S754_infinity true)
                           b32_default_camera) = b32_dec 45 0.
Proof.
  assert (Hz : b32_finite (Zoom b32_default_camera) = true) by reflexivity.
  split; [exact Hz|].
  exact (proj2 (X16_infinite_scroll cosf_ref sinf_ref b32_default_camera Hz)).
Defined.

(** * More of the header: the basis and [GetViewMatrix] in binary32 *)

Section Binary32View.
Variables cosf sinf : binary32 -> binary32.
Import glm_matrix_transform.

Lemma b32_horizontal (fx fz s : binary32) :
  b32_zero_or_nan
    (b32_mul (b32_sub (b32_mul fz (S754_zero false))
                      (b32_mul (S754_zero false) fx)) s) = true.
Proof.
  destruct fx as [[]|[]| |[] mx ex], fz as [[]|[]| |[] mz ez],
           s as [[]|[]| |[] ms es]; reflexivity.
Qed.

Lemma b32_normalize_cross_nan_r (f : glm.vec3 binary32) :
  glm.normalize (SF := Scalar_binary32 cosf sinf)
    (glm.cross (SF := Scalar_binary32 cosf sinf) f b32_nan_vec)
  = b32_nan_vec.
Proof.
  destruct f as [[[]|[]| |[] mx ex] [[]|[]| |[] my ey] [[]|[]| |[] mz ez]];
    reflexivity.
Qed.

(** X6: the camera never rolls.  In binary32, with any [cos] and [sin],
    for every reachable camera whose world-up is (0, 1, 0), the y
    component of right is a zero (+0 or -0) or NaN: right never leaves
    the horizontal plane, whatever the yaw and the pitch, and whatever
    rounding does to front. *)
Theorem X6_right_stays_horizontal :
  forall c : _Camera binary32,
    reachable (SF := Scalar_binary32 cosf sinf) c ->
    WorldUp c = b32_up_Y ->
    b32_zero_or_nan (glm.y (Right c)) = true.
Proof.
  intros c Hr Hw.
  destruct (reachable_basis_current Hr) as (_ & Er & _).
  rewrite Er, Hw. unfold spec_right.
  generalize (spec_front (SF := Scalar_binary32 cosf sinf)
                (Yaw (EulerAngles c)) (Pitch (EulerAngles c))).
  intros [fx fy fz]. unfold glm.normalize, glm.vscale. cbn [glm.y].
  generalize (glm.inversesqrt (SF := Scalar_binary32 cosf sinf)
                (glm.dot (SF := Scalar_binary32 cosf sinf)
                   (glm.cross (SF := Scalar_binary32 cosf sinf)
                      (glm.mk_vec3 fx fy fz) b32_up_Y)
                   (glm.cross (SF := Scalar_binary32 cosf sinf)
                      (glm.mk_vec3 fx fy fz) b32_up_Y))).
  intros s. exact (b32_horizontal fx fz s).
Qed.

(** X17: a position that is not a number, as a NaN [deltaTime] leaves it,
    empties the view matrix.  In binary32, with any [cos] and [sin], for
    every camera whose three coordinates are NaN, [GetViewMatrix] returns
    the matrix whose first three rows are NaN in every column, over the
    last row (0, 0, 0, 1). *)
Theorem X17_nan_position_view :
  forall c : _Camera binary32,
    Position c = b32_nan_vec ->
    GetViewMatrix (SF := Scalar_binary32 cosf sinf) (NF := Negation_binary32) c
    = b32_nan_view.
Proof.
  intros c Hp. unfold GetViewMatrix. rewrite Hp. reflexivity.
Qed.

(** X18: a zero world-up loses two rows of the view matrix.  In binary32,
    with any [cos] and [sin], for every position, yaw and pitch, the view
    matrix of [Camera(position, glm::vec3(0), yaw, pitch)] has NaN in the
    rows x and y of its four columns, so that it sends every vector to
    NaN x and y coordinates. *)
Theorem X18_zero_world_up_view :
  forall (position : glm.vec3 binary32) (yaw pitch : binary32),
    let V := GetViewMatrix (SF := Scalar_binary32 cosf sinf)
                           (NF := Negation_binary32)
               (Camera (SF := Scalar_binary32 cosf sinf)
                       position b32_zero_vec yaw pitch) in
    (x (col0 V) = S754_nan /\ y (col0 V) = S754_nan /\
     x (col1 V) = S754_nan /\ y (col1 V) = S754_nan /\
     x (col2 V) = S754_nan /\ y (col2 V) = S754_nan /\
     x (col3 V) = S754_nan /\ y (col3 V) = S754_nan) /\
    (forall v : vec4 binary32,
        x (mul_vec4 (SF := Scalar_binary32 cosf sinf) V v) = S754_nan /\
        y (mul_vec4 (SF := Scalar_binary32 cosf sinf) V v) = S754_nan).
Proof.
  intros position yaw pitch. cbn zeta.
  destruct (b32_zero_world_up cosf sinf position yaw pitch) as (_ & Eu).
  cbn zeta in Eu. unfold GetViewMatrix. rewrite Eu. unfold lookAt.
  rewrite b32_normalize_cross_nan_r.
  split; [repeat split|]. intros v; split; reflexivity.
Qed.

Lemma b32_mul_nan_l (a : binary32) : b32_mul S754_nan a = S754_nan.
Proof. reflexivity. Qed.

(** X19: with a zero world-up a step to the side loses the position.  In
    binary32, with any [cos] and [sin], for every position, yaw, pitch
    and [deltaTime], [ProcessKeyboard] with [LEFT] or [RIGHT] on
    [Camera(position, glm::vec3(0), yaw, pitch)] leaves all three
    coordinates NaN. *)
Theorem X19_zero_world_up_strafe :
  forall (position : glm.vec3 binary32) (yaw pitch deltaTime : binary32),
    let c := Camera (SF := Scalar_binary32 cosf sinf)
                    position b32_zero_vec yaw pitch in
    Position (ProcessKeyboard (SF := Scalar_binary32 cosf sinf)
                              LEFT deltaTime c) = b32_nan_vec /\
    Position (ProcessKeyboard (SF := Scalar_binary32 cosf sinf)
                              RIGHT deltaTime c) = b32_nan_vec.
Proof.
  intros position yaw pitch deltaTime. cbn zeta.
  destruct (b32_zero_world_up cosf sinf position yaw pitch) as (Er & _).
  cbn zeta in Er. rewrite !ProcessKeyboard_eq.
  cbn [Position set_Position]. rewrite Er.
  unfold glm.vsub, glm.vadd, glm.vscale, b32_nan_vec.
  cbn [glm.x glm.y glm.z fadd fsub fmul Scalar_binary32].
  rewrite !b32_mul_nan_l, !b32_sub_nan_r, !b32_add_nan_r.
  split; reflexivity.
Qed.
End Binary32View.

Lemma X6_right_stays_horizontal_witness :
  reachable (SF := Scalar_b32_ref) b32_turned_camera /\
  WorldUp b32_turned_camera = b32_up_Y /\
  b32_zero_or_nan (glm.y (Right b32_turned_camera)) = true.
Proof.
  assert (Hr : reachable (SF := Scalar_b32_ref) b32_turned_camera)
    by (apply reach_ProcessMouseMovement, reach_Camera).
  assert (Hw : WorldUp b32_turned_camera = b32_up_Y) by reflexivity.
  split; [exact Hr|]. split; [exact Hw|].
  exact (X6_right_stays_horizontal Hr Hw).
Defined.

Lemma X17_nan_position_view_witness :
  Position (ProcessKeyboard (SF := Scalar_b32_ref) LEFT S754_nan
                            b32_default_camera) = b32_nan_vec /\
  GetViewMatrix (SF := Scalar_b32_ref) (NF := Negation_binary32)
    (ProcessKeyboard (SF := Scalar_b32_ref) LEFT S754_nan b32_default_camera)
  = b32_nan_view.
Proof.
  assert (Hp : Position (ProcessKeyboard (SF := Scalar_b32_ref) LEFT S754_nan
                           b32_default_camera) = b32_nan_vec)
    by (vm_compute; reflexivity).
  split; [exact Hp|].
  exact (X17_nan_position_view cosf_ref sinf_ref _ Hp).
Defined.
